(** * Person segmentation and ad selection service (app.py)

    A shallow embedding of [src/app.py]: the answer normalizer
    [extract_answer], the model wrapper [ask_mlx_vlm], the request handler
    [process_image] with its segmentation loop and ad selection, the static
    ad catalogs and the star rendering [format_stars].

    Conventions of the embedding.
    - Python [str] is [string]: a sequence of characters below 128 is held
      as it is, any other character by its UTF-8 bytes.  The case functions
      of [PyStr] are those of [str.title] on the ASCII letters, and they
      leave the bytes from 128 up alone: [PyStr] is the reading of the
      string methods on ASCII text.  [str.title] itself follows the Unicode
      data; module [Uni] has the normalizer on code points, with these data
      for the code points it is stated about, and on ASCII text the two
      readings agree ([extract_answer_points]).
    - A [float] rating is a rational [Q].  [int(rating)] truncates, and for
      a finite float the difference [rating - int(rating)] and its
      comparison with [0.5] are exact, so the rational reading computes what
      the floating-point one does.  [str * n] is read for a count that fits
      an index-sized integer; the statements about the stars bound the
      rating so.
    - A [dict] is a [gmap string _]; [dict.get] is a lookup with default.
    - Exceptions, logging, the image library, the model and the random
      generator are effects: a computation is a function of a [world]
      (the journal of calls made so far) to an [outcome] and a new world. *)

From Stdlib Require Import Ascii String QArith Qround.
From stdpp Require Import gmap strings list fin_maps.

Open Scope string_scope.

(** ** Python string methods *)

Module PyStr.

Definition code (c : ascii) : nat := nat_of_ascii c.

Definition isupper (c : ascii) : bool := (65 <=? code c)%nat && (code c <=? 90)%nat.
Definition islower (c : ascii) : bool := (97 <=? code c)%nat && (code c <=? 122)%nat.

(** A character is cased when it is a letter with an upper and a lower form. *)
Definition iscased (c : ascii) : bool := isupper c || islower c.

Definition upper (c : ascii) : ascii :=
  if islower c then ascii_of_nat (code c - 32) else c.
Definition lower (c : ascii) : ascii :=
  if isupper c then ascii_of_nat (code c + 32) else c.

(** [str.isspace] on one character: tab, line feed, vertical tab, form
    feed, carriage return, the four separators 28..31 and the space. *)
Definition isspace (c : ascii) : bool :=
  ((9 <=? code c)%nat && (code c <=? 13)%nat)
  || ((28 <=? code c)%nat && (code c <=? 32)%nat).

(** [c in chars]. *)
Fixpoint char_in (chars : string) (c : ascii) : bool :=
  match chars with
  | EmptyString => false
  | String d chars' => Ascii.eqb c d || char_in chars' c
  end.

Definition is_empty (s : string) : bool :=
  match s with EmptyString => true | String _ _ => false end.

(** [str.title]: the loop of CPython's [do_title].  A cased character is
    put in title case when the character before it is not cased, and in
    lower case when it is; [previous_is_cased] starts false. *)
Fixpoint do_title (previous_is_cased : bool) (s : string) : string :=
  match s with
  | EmptyString => EmptyString
  | String c s' =>
      String (if previous_is_cased then lower c else upper c)
             (do_title (iscased c) s')
  end.

Definition title (s : string) : string := do_title false s.

(** [str.lstrip], [str.rstrip] and [str.strip] for a set of characters
    given by its membership test. *)
Fixpoint lstrip_by (p : ascii -> bool) (s : string) : string :=
  match s with
  | EmptyString => EmptyString
  | String c s' => if p c then lstrip_by p s' else s
  end.

Fixpoint rstrip_by (p : ascii -> bool) (s : string) : string :=
  match s with
  | EmptyString => EmptyString
  | String c s' =>
      let rest := rstrip_by p s' in
      if p c && is_empty rest then EmptyString else String c rest
  end.

Definition strip_by (p : ascii -> bool) (s : string) : string :=
  rstrip_by p (lstrip_by p s).

(** [s.strip(chars)]. *)
Definition strip (chars : string) (s : string) : string :=
  strip_by (char_in chars) s.

(** [s.replace(old, new)] for a non-empty [old]: the occurrences are
    found from the left and do not overlap.  [skip] counts the characters
    of a found occurrence that are still to be passed over. *)
Fixpoint replace_from (skip : nat) (old new s : string) : string :=
  match s with
  | EmptyString => EmptyString
  | String c s' =>
      match skip with
      | S k => replace_from k old new s'
      | O =>
          if String.prefix old s
          then new +:+ replace_from (String.length old - 1) old new s'
          else String c (replace_from 0 old new s')
      end
  end.

Definition replace (old new s : string) : string := replace_from 0 old new s.

(** [s * n] for a count that fits an index-sized integer,
    [-2^63 <= n < 2^63]: no copy at all for [n <= 0].  For a count outside
    that range Python raises [OverflowError], which this function does not
    show. *)
Fixpoint repeat_nat (s : string) (n : nat) : string :=
  match n with
  | O => EmptyString
  | S n' => s +:+ repeat_nat s n'
  end.

Definition mul (s : string) (n : Z) : string := repeat_nat s (Z.to_nat n).

(** Number of positions of [s] at which [pat] starts. *)
Fixpoint count_at (pat s : string) : nat :=
  match s with
  | EmptyString => 0
  | String _ s' => (if String.prefix pat s then 1 else 0) + count_at pat s'
  end.

(** [sub in s]. *)
Definition contains (s sub : string) : Prop :=
  exists before after, s = before +:+ sub +:+ after.

(** The double quote and the line feed, which a literal cannot hold. *)
Definition dq : string := String (ascii_of_nat 34) EmptyString.
Definition nl : string := String (ascii_of_nat 10) EmptyString.

End PyStr.

(** ** The answer normalizer (app.py, [extract_answer]) *)

Definition end_of_utterance : string := "<end_of_utterance>".

Definition extract_answer (response : string) : string :=
  let response := PyStr.replace end_of_utterance "" response in
  let response := PyStr.strip ". " response in
  let response := PyStr.title response in
  response.

(** The normalizer as the specification words it: the marker is removed,
    then every leading and trailing whitespace character and period is
    trimmed, then the text is put in title case. *)
Definition normalize_as_specified (response : string) : string :=
  PyStr.title
    (PyStr.strip_by (fun c => PyStr.isspace c || Ascii.eqb c ".")
       (PyStr.replace end_of_utterance "" response)).

(** ** Advertisements and the static catalogs *)

(** [class Ad]: the constructor stores its four arguments and a fixed image
    reference; its [image_size] argument is not used. *)
Record Ad : Type := mkAd {
  title : string;
  description : string;
  price : string;
  rating : Q;
  image_placeholder : string
}.

Definition Ad_init (title description price : string) (rating : Q) : Ad :=
  {| title := title;
     description := description;
     price := price;
     rating := rating;
     image_placeholder :=
       "https://blog.udemy.com/wp-content/uploads/2014/05/bigstock-Vector-Promotion-Concept-Fla-57726575.jpg" |}.

Definition ads_age : gmap string (list Ad) :=
  list_to_map
    [ ("20-30",
        [ Ad_init "Ultra Boost X Sneakers"
            "Limited edition sneakers with cutting-edge comfort technology"
            "$199.99" 4.8;
          Ad_init "Smart Fitness Watch Pro"
            "Track your workouts, sleep, and lifestyle with AI-powered insights"
            "$299.99" 4.7;
          Ad_init "Urban Streetwear Collection"
            "Express yourself with our latest street-inspired fashion drops"
            "$149.99" 4.6 ]);
      ("30-40",
        [ Ad_init "Premium Coffee Maker Plus"
            "Barista-quality coffee at home with smart temperature control"
            "$399.99" 4.9;
          Ad_init "Professional Series Smartwatch"
            "Elegant timepiece with advanced productivity features"
            "$449.99" 4.8;
          Ad_init "Home Automation Starter Kit"
            "Transform your space with intelligent lighting and security"
            "$299.99" 4.7 ]);
      ("40-50",
        [ Ad_init "Artisanal Wine Selection"
            "Curated collection of premium wines from renowned vineyards"
            "$599.99" 4.9;
          Ad_init "Luxury Watch Collection"
            "Timeless elegance meets modern craftsmanship"
            "$1999.99" 4.8;
          Ad_init "Executive Wardrobe Essentials"
            "Premium suits and accessories for the distinguished professional"
            "$899.99" 4.7 ]);
      ("50+",
        [ Ad_init "Wellness Supplement Bundle"
            "Comprehensive nutrition support for active aging"
            "$129.99" 4.8;
          Ad_init "Comfort-Tech Footwear"
            "Advanced ergonomic design for all-day comfort"
            "$159.99" 4.7;
          Ad_init "Luxury Travel Experiences"
            "Curated adventures with premium accommodations and service"
            "$2999.99" 4.9 ]) ].

Definition ads_gender : gmap string (list Ad) :=
  list_to_map
    [ ("Male",
        [ Ad_init "Premium Grooming Kit"
            "Complete care collection with precision trimmer and luxurious skincare"
            "$199.99" 4.7;
          Ad_init "Modern Menswear Essentials"
            "Versatile pieces for the contemporary gentleman"
            "$299.99" 4.6;
          Ad_init "Sports Performance Collection"
            "Advanced gear for your active lifestyle"
            "$249.99" 4.8 ]);
      ("Female",
        [ Ad_init "Luxury Beauty Collection"
            "Premium skincare and makeup for radiant beauty"
            "$299.99" 4.9;
          Ad_init "Designer Handbag Selection"
            "Exclusive bags from world-renowned fashion houses"
            "$999.99" 4.8;
          Ad_init "Jewelry & Accessories Edit"
            "Timeless pieces to elevate every outfit"
            "$499.99" 4.7 ]) ].

Definition ads_mood : gmap string (list Ad) :=
  list_to_map
    [ ("Happy",
        [ Ad_init "Party Planning Bundle"
            "Everything you need for your next celebration"
            "$199.99" 4.7;
          Ad_init "Adventure Gear Set"
            "Premium outdoor equipment for your next expedition"
            "$399.99" 4.8;
          Ad_init "Entertainment Package Plus"
            "Stream, game, and enjoy with our premium entertainment system"
            "$599.99" 4.6 ]);
      ("Neutral",
        [ Ad_init "Home Essentials Collection"
            "Quality basics for everyday living"
            "$249.99" 4.5;
          Ad_init "Smart Kitchen Appliances"
            "Efficient cooking with innovative technology"
            "$699.99" 4.7;
          Ad_init "Casual Dining Experience"
            "Discover local restaurants with exclusive offers"
            "$99.99" 4.6 ]);
      ("Sad",
        [ Ad_init "Wellness Retreat Package"
            "Rejuvenating spa experiences for mind and body"
            "$399.99" 4.9;
          Ad_init "Comfort Food Delivery"
            "Gourmet comfort meals delivered to your door"
            "$79.99" 4.7;
          Ad_init "Self-Care Collection"
            "Premium products for relaxation and wellness"
            "$199.99" 4.8 ]) ].

Definition ads_style : gmap string (list Ad) :=
  list_to_map
    [ ("Sporty",
        [ Ad_init "Pro Athletic Wear"
            "High-performance gear for serious athletes"
            "$199.99" 4.8;
          Ad_init "Premium Running Shoes"
            "Advanced cushioning and support for every run"
            "$179.99" 4.7;
          Ad_init "Sports Tech Bundle"
            "Track and improve your performance with smart devices"
            "$299.99" 4.6 ]);
      ("Casual",
        [ Ad_init "Essential Comfort Collection"
            "Effortless style for everyday wear"
            "$149.99" 4.5;
          Ad_init "Lifestyle Sneaker Edit"
            "Trendy and comfortable footwear for any occasion"
            "$129.99" 4.6;
          Ad_init "Casual Basics Bundle"
            "Build your perfect everyday wardrobe"
            "$199.99" 4.7 ]);
      ("Formal",
        [ Ad_init "Luxury Suit Collection"
            "Bespoke tailoring with premium fabrics"
            "$999.99" 4.9;
          Ad_init "Executive Accessories"
            "Fine watches and leather goods for professionals"
            "$499.99" 4.8;
          Ad_init "Premium Business Wear"
            "Sophisticated attire for the modern executive"
            "$799.99" 4.7 ]);
      ("Vintage",
        [ Ad_init "Classic Collection Pieces"
            "Timeless fashion with a modern twist"
            "$299.99" 4.7;
          Ad_init "Retro-Inspired Accessories"
            "Vintage-style pieces for unique charm"
            "$199.99" 4.6;
          Ad_init "Heritage Fashion Edit"
            "Contemporary takes on classic designs"
            "$399.99" 4.8 ]) ].

(** ** Star rendering (app.py, [format_stars]) *)

(** [int(x)] on a number: truncation toward zero. *)
Definition py_int (x : Q) : Z := Z.quot (Qnum x) (Zpos (Qden x)).

Definition filled_star : string := "★".
Definition half_star : string := "½".

Definition format_stars (rating : Q) : string :=
  let full_stars := py_int rating in
  let has_half := Qle_bool 0.5 (rating - inject_Z full_stars) in
  let stars := PyStr.mul filled_star full_stars in
  if has_half then stars +:+ half_star else stars.

(** ** Dictionaries *)

(** [d.get(key, dflt)].  The key is a string or [None]; the dictionaries of
    this program have string keys only, so [None] is never found. *)
Definition dict_get {V : Type} (d : gmap string V) (key : option string) (dflt : V) : V :=
  match key with
  | Some k => default dflt (d !! k)
  | None => dflt
  end.

(** ** Effects: exceptions, the journal of calls, external collaborators *)

(** An exception deriving from [Exception]; [exn_str e] is [str(e)]. *)
Record exn : Type := Exception { exn_str : string }.

Inductive outcome (A : Type) : Type :=
| Returns (a : A)
| Raises (e : exn).
Arguments Returns {A} a.
Arguments Raises {A} e.

Inductive level : Type := INFO | ERROR.

(** What the program asks of the outside, in the order it asks. *)
Inductive call : Type :=
| Log (lv : level) (msg : string)
| ImageOpen (stream : string)
| ApplyChatTemplate (question : string)
| Generate (prompt : string)
| RandomChoice (n : nat).

Record world : Type := mkWorld {
  journal : list call;
  draws : nat
}.

Definition initial_world : world := {| journal := []; draws := 0 |}.

(** The collaborators the program is loaded with.  [Image_open] stands for
    [Image.open(stream).convert("RGB")], [image_size] for the text of
    [image.size], [apply_chat_template] and [generate] for the functions of
    the same names with the loaded model, processor and configuration,
    [randbelow k n] for the [k]-th draw of the random generator below [n],
    and [float_str] for the text of a float. *)
Record Env : Type := mkEnv {
  Image : Type;
  Image_open : string -> outcome Image;
  image_size : Image -> string;
  apply_chat_template : string -> outcome string;
  generate : string -> Image -> outcome string;
  randbelow : nat -> nat -> nat;
  float_str : Q -> string
}.

Module Eff.

Definition M (A : Type) : Type := world -> outcome A * world.

Definition ret {A : Type} (a : A) : M A := fun w => (Returns a, w).

Definition bind {A B : Type} (m : M A) (k : A -> M B) : M B :=
  fun w =>
    match m w with
    | (Returns a, w') => k a w'
    | (Raises e, w') => (Raises e, w')
    end.

Definition raise {A : Type} (e : exn) : M A := fun w => (Raises e, w).

(** [try: m  except Exception as e: handler e]. *)
Definition try_except {A : Type} (m : M A) (handler : exn -> M A) : M A :=
  fun w =>
    match m w with
    | (Returns a, w') => (Returns a, w')
    | (Raises e, w') => handler e w'
    end.

Definition record (c : call) : M unit :=
  fun w => (Returns tt, {| journal := journal w ++ [c]; draws := draws w |}).

(** The result of an external call, once the call is in the journal. *)
Definition extern {A : Type} (c : call) (r : outcome A) : M A :=
  fun w => (r, {| journal := journal w ++ [c]; draws := draws w |}).

Definition logger_info (msg : string) : M unit := record (Log INFO msg).
Definition logger_error (msg : string) : M unit := record (Log ERROR msg).

(** [random.choice(seq)]: [seq[randbelow(len(seq))]], an [IndexError] on
    an empty sequence. *)
Definition random_choice {A : Type} (env : Env) (seq : list A) : M A :=
  fun w =>
    match seq !! (randbelow env (draws w) (length seq) `mod` length seq)%nat with
    | Some x =>
        (Returns x,
         {| journal := journal w ++ [RandomChoice (length seq)];
            draws := S (draws w) |})
    | None => (Raises (Exception "Cannot choose from an empty sequence"), w)
    end.

(** [d[key]]: a [KeyError] when the key is absent. *)
Definition getitem {V : Type} (d : gmap string V) (key : string) : M V :=
  match d !! key with
  | Some v => ret v
  | None => raise (Exception ("'" +:+ key +:+ "'"))
  end.

(** A loop [for x in xs: acc = body acc x]. *)
Fixpoint for_each {A S : Type} (xs : list A) (body : S -> A -> M S) (acc : S) : M S :=
  match xs with
  | [] => ret acc
  | x :: xs' => bind (body acc x) (for_each xs' body)
  end.

End Eff.

Notation "x <- m ;; k" := (Eff.bind m (fun x => k))
  (at level 100, m at next level, right associativity).
Notation "m ;;; k" := (Eff.bind m (fun _ => k))
  (at level 100, right associativity).

(** ** The model wrapper (app.py, [ask_mlx_vlm]) *)

Definition ask_mlx_vlm (env : Env) (image : Image env) (question : string) : Eff.M string :=
  Eff.logger_info ("Processing question: " +:+ question) ;;;
  Eff.try_except
    (formatted_prompt <- Eff.extern (ApplyChatTemplate question)
                           (apply_chat_template env question) ;;
     output <- Eff.extern (Generate formatted_prompt)
                 (generate env formatted_prompt image) ;;
     Eff.logger_info ("Generated response: " +:+ output) ;;;
     Eff.ret output)
    (fun e =>
       Eff.logger_error ("Error in ask_mlx_vlm: " +:+ exn_str e) ;;;
       Eff.ret ("Error processing question: " +:+ exn_str e)).

(** ** The request handler (app.py, [process_image]) *)

Record Response : Type := mkResponse {
  body : gmap string string;
  status : nat
}.

(** [jsonify(d)] alone answers with status 200; [jsonify(d), n] with [n]. *)
Definition jsonify (d : gmap string string) : Response := {| body := d; status := 200 |}.
Definition with_status (r : Response) (n : nat) : Response := {| body := body r; status := n |}.

(** The dictionary [questions], in the order of its literal. *)
Definition questions : list (string * string) :=
  [ ("age", "Based on the person's facial features, what is the age range? Answer with one of: '20-30', '30-40', '40-50', '50+'.");
    ("gender", "Based on the person's appearance, what is their likely gender? Answer with 'Male' or 'Female'.");
    ("mood", "How would you describe the person's mood based on their expression? Answer with 'Happy', 'Neutral', or 'Sad'.");
    ("style", "Based on the person's style, what fashion category do they belong to? Answer with 'Sporty', 'Casual', 'Formal', or 'Vintage'.") ].

(** Lines 208-214: the image is read, or the request ends with status 500. *)
Definition read_image (env : Env) (image_file : string) : Eff.M (Image env + Response) :=
  Eff.try_except
    (image <- Eff.extern (ImageOpen image_file) (Image_open env image_file) ;;
     Eff.logger_info ("Received image of size: " +:+ image_size env image) ;;;
     Eff.ret (inl image))
    (fun e =>
       Eff.logger_error ("Error reading image: " +:+ exn_str e) ;;;
       Eff.ret (inr (with_status (jsonify {[ "error" := exn_str e ]}) 500))).

(** Lines 224-232: one turn of the loop over [questions.items()]. *)
Definition segment_one (env : Env) (image : Image env)
    (segmentation : gmap string string) (item : string * string)
  : Eff.M (gmap string string) :=
  let '(key, question) := item in
  Eff.logger_info ("Segmenting for " +:+ key +:+ " using question: " +:+ question) ;;;
  Eff.try_except
    (response <- ask_mlx_vlm env image question ;;
     let segmentation := <[ key := extract_answer response ]> segmentation in
     label <- Eff.getitem segmentation key ;;
     Eff.logger_info ("Segmentation result for " +:+ key +:+ ": " +:+ label) ;;;
     Eff.ret segmentation)
    (fun e =>
       Eff.logger_error ("Error during segmentation for " +:+ key +:+ ": " +:+ exn_str e) ;;;
       Eff.ret (<[ key := "N/A" ]> segmentation)).

(** Lines 216-232: the segmentation result of a request. *)
Definition segment (env : Env) (image : Image env) : Eff.M (gmap string string) :=
  Eff.for_each questions (segment_one env image) ∅.

(** The fallback advertisement of each category (lines 236-239). *)
Definition default_age_ad : Ad :=
  Ad_init "Default Age Ad" "Personalized recommendations for you" "$0.00" 5.0.
Definition default_gender_ad : Ad :=
  Ad_init "Default Gender Ad" "Curated selections for you" "$0.00" 5.0.
Definition default_mood_ad : Ad :=
  Ad_init "Default Mood Ad" "Special picks for your mood" "$0.00" 5.0.
Definition default_style_ad : Ad :=
  Ad_init "Default Style Ad" "Trending items for your style" "$0.00" 5.0.

(** Lines 235-240: one random advertisement per category. *)
Definition select_ads (env : Env) (segmentation : gmap string string) : Eff.M (gmap string Ad) :=
  age <- Eff.random_choice env
           (dict_get ads_age (segmentation !! "age") [default_age_ad]) ;;
  gender <- Eff.random_choice env
              (dict_get ads_gender (segmentation !! "gender") [default_gender_ad]) ;;
  mood <- Eff.random_choice env
            (dict_get ads_mood (segmentation !! "mood") [default_mood_ad]) ;;
  style <- Eff.random_choice env
             (dict_get ads_style (segmentation !! "style") [default_style_ad]) ;;
  Eff.ret (list_to_map [("age", age); ("gender", gender); ("mood", mood); ("style", style)]).

(** Lines 78-89: the module-level card, which [process_image] shadows with
    its own and never calls. *)
Definition format_ad_html_module (env : Env) (ad : Ad) : string :=
  String.concat ""
    [ PyStr.nl;
      "    <div style="; PyStr.dq; "border: 1px solid #ddd; padding: 15px; margin: 10px 0; border-radius: 8px; background-color: white;"; PyStr.dq; ">"; PyStr.nl;
      "        <img src="; PyStr.dq; image_placeholder ad; PyStr.dq; " alt="; PyStr.dq; title ad; PyStr.dq; " style="; PyStr.dq; "width: 300px; height: auto; border-radius: 4px;"; PyStr.dq; ">"; PyStr.nl;
      "        <h3 style="; PyStr.dq; "margin: 10px 0; color: #333; font-size: 18px;"; PyStr.dq; ">"; title ad; "</h3>"; PyStr.nl;
      "        <p style="; PyStr.dq; "color: #666; margin: 8px 0;"; PyStr.dq; ">"; description ad; "</p>"; PyStr.nl;
      "        <div style="; PyStr.dq; "display: flex; justify-content: space-between; align-items: center; margin-top: 10px;"; PyStr.dq; ">"; PyStr.nl;
      "            <span style="; PyStr.dq; "color: #2ecc71; font-weight: bold; font-size: 20px;"; PyStr.dq; ">"; price ad; "</span>"; PyStr.nl;
      "            <span style="; PyStr.dq; "color: #f1c40f; font-size: 16px;"; PyStr.dq; ">"; format_stars (rating ad); " ("; float_str env (rating ad); ")</span>"; PyStr.nl;
      "        </div>"; PyStr.nl;
      "    </div>"; PyStr.nl;
      "    " ].

(** Lines 243-256: the card of one advertisement, as [process_image]
    defines it. *)
Definition format_ad_html (env : Env) (ad : Ad) : string :=
  String.concat ""
    [ PyStr.nl;
      "        <div class="; PyStr.dq; "ad-card"; PyStr.dq; ">"; PyStr.nl;
      "            <img src="; PyStr.dq; image_placeholder ad; PyStr.dq; " alt="; PyStr.dq; title ad; PyStr.dq; " class="; PyStr.dq; "ad-image"; PyStr.dq; ">"; PyStr.nl;
      "            <div class="; PyStr.dq; "ad-content"; PyStr.dq; ">"; PyStr.nl;
      "                <h3 class="; PyStr.dq; "ad-title"; PyStr.dq; ">"; title ad; "</h3>"; PyStr.nl;
      "                <p class="; PyStr.dq; "ad-description"; PyStr.dq; ">"; description ad; "</p>"; PyStr.nl;
      "                <div class="; PyStr.dq; "ad-footer"; PyStr.dq; ">"; PyStr.nl;
      "                    <span class="; PyStr.dq; "ad-price"; PyStr.dq; ">"; price ad; "</span>"; PyStr.nl;
      "                    <span class="; PyStr.dq; "ad-rating"; PyStr.dq; ">"; format_stars (rating ad); " ("; float_str env (rating ad); ")</span>"; PyStr.nl;
      "                </div>"; PyStr.nl;
      "            </div>"; PyStr.nl;
      "        </div>"; PyStr.nl;
      "        " ].

(** Lines 258-391: the fragment, with the four cards already rendered. *)
Definition html_output (segmentation : gmap string string)
    (card_age card_gender card_mood card_style : string) : string :=
  String.concat ""
    [ PyStr.nl;
      "    <style>"; PyStr.nl;
      "        .results-container {"; PyStr.nl;
      "            font-family: Arial, sans-serif;"; PyStr.nl;
      "            max-width: 1200px;"; PyStr.nl;
      "            margin: 0 auto;"; PyStr.nl;
      "            padding: 20px;"; PyStr.nl;
      "        }"; PyStr.nl;
      "        "; PyStr.nl;
      "        .segmentation-card {"; PyStr.nl;
      "            background: white;"; PyStr.nl;
      "            border-radius: 8px;"; PyStr.nl;
      "            padding: 15px;"; PyStr.nl;
      "            margin-bottom: 20px;"; PyStr.nl;
      "            box-shadow: 0 2px 4px rgba(0,0,0,0.1);"; PyStr.nl;
      "        }"; PyStr.nl;
      "        "; PyStr.nl;
      "        .segmentation-grid {"; PyStr.nl;
      "            display: grid;"; PyStr.nl;
      "            grid-template-columns: repeat(4, 1fr);"; PyStr.nl;
      "            gap: 15px;"; PyStr.nl;
      "        }"; PyStr.nl;
      "        "; PyStr.nl;
      "        .segmentation-item {"; PyStr.nl;
      "            display: flex;"; PyStr.nl;
      "            align-items: center;"; PyStr.nl;
      "            gap: 8px;"; PyStr.nl;
      "        }"; PyStr.nl;
      "        "; PyStr.nl;
      "        .ads-grid {"; PyStr.nl;
      "            display: grid;"; PyStr.nl;
      "            grid-template-columns: repeat(4, 1fr);"; PyStr.nl;
      "            gap: 20px;"; PyStr.nl;
      "        }"; PyStr.nl;
      "        "; PyStr.nl;
      "        .ad-card {"; PyStr.nl;
      "            background: white;"; PyStr.nl;
      "            border-radius: 8px;"; PyStr.nl;
      "            overflow: hidden;"; PyStr.nl;
      "            box-shadow: 0 2px 4px rgba(0,0,0,0.1);"; PyStr.nl;
      "            transition: transform 0.2s;"; PyStr.nl;
      "        }"; PyStr.nl;
      "        "; PyStr.nl;
      "        .ad-card:hover {"; PyStr.nl;
      "            transform: translateY(-5px);"; PyStr.nl;
      "        }"; PyStr.nl;
      "        "; PyStr.nl;
      "        .ad-image {"; PyStr.nl;
      "            width: 100%;"; PyStr.nl;
      "            height: 200px;"; PyStr.nl;
      "            object-fit: cover;"; PyStr.nl;
      "        }"; PyStr.nl;
      "        "; PyStr.nl;
      "        .ad-content {"; PyStr.nl;
      "            padding: 15px;"; PyStr.nl;
      "        }"; PyStr.nl;
      "        "; PyStr.nl;
      "        .ad-title {"; PyStr.nl;
      "            margin: 0 0 10px 0;"; PyStr.nl;
      "            font-size: 16px;"; PyStr.nl;
      "            font-weight: bold;"; PyStr.nl;
      "            color: #333;"; PyStr.nl;
      "        }"; PyStr.nl;
      "        "; PyStr.nl;
      "        .ad-description {"; PyStr.nl;
      "            font-size: 14px;"; PyStr.nl;
      "            color: #666;"; PyStr.nl;
      "            margin-bottom: 15px;"; PyStr.nl;
      "            line-height: 1.4;"; PyStr.nl;
      "        }"; PyStr.nl;
      "        "; PyStr.nl;
      "        .ad-footer {"; PyStr.nl;
      "            display: flex;"; PyStr.nl;
      "            justify-content: space-between;"; PyStr.nl;
      "            align-items: center;"; PyStr.nl;
      "        }"; PyStr.nl;
      "        "; PyStr.nl;
      "        .ad-price {"; PyStr.nl;
      "            color: #2ecc71;"; PyStr.nl;
      "            font-weight: bold;"; PyStr.nl;
      "            font-size: 18px;"; PyStr.nl;
      "        }"; PyStr.nl;
      "        "; PyStr.nl;
      "        .ad-rating {"; PyStr.nl;
      "            color: #f1c40f;"; PyStr.nl;
      "            font-size: 14px;"; PyStr.nl;
      "        }"; PyStr.nl;
      "        "; PyStr.nl;
      "        @media (max-width: 1024px) {"; PyStr.nl;
      "            .ads-grid {"; PyStr.nl;
      "                grid-template-columns: repeat(2, 1fr);"; PyStr.nl;
      "            }"; PyStr.nl;
      "        }"; PyStr.nl;
      "        "; PyStr.nl;
      "        @media (max-width: 640px) {"; PyStr.nl;
      "            .ads-grid {"; PyStr.nl;
      "                grid-template-columns: 1fr;"; PyStr.nl;
      "            }"; PyStr.nl;
      "            .segmentation-grid {"; PyStr.nl;
      "                grid-template-columns: repeat(2, 1fr);"; PyStr.nl;
      "            }"; PyStr.nl;
      "        }"; PyStr.nl;
      "    </style>"; PyStr.nl;
      PyStr.nl;
      "    <div class="; PyStr.dq; "results-container"; PyStr.dq; ">"; PyStr.nl;
      "        <div class="; PyStr.dq; "segmentation-card"; PyStr.dq; ">"; PyStr.nl;
      "            <div class="; PyStr.dq; "segmentation-grid"; PyStr.dq; ">"; PyStr.nl;
      "                <div class="; PyStr.dq; "segmentation-item"; PyStr.dq; ">"; PyStr.nl;
      "                    <span>🎯</span>"; PyStr.nl;
      "                    <span>Age: "; dict_get segmentation (Some "age") "N/A"; "</span>"; PyStr.nl;
      "                </div>"; PyStr.nl;
      "                <div class="; PyStr.dq; "segmentation-item"; PyStr.dq; ">"; PyStr.nl;
      "                    <span>👤</span>"; PyStr.nl;
      "                    <span>Gender: "; dict_get segmentation (Some "gender") "N/A"; "</span>"; PyStr.nl;
      "                </div>"; PyStr.nl;
      "                <div class="; PyStr.dq; "segmentation-item"; PyStr.dq; ">"; PyStr.nl;
      "                    <span>😊</span>"; PyStr.nl;
      "                    <span>Mood: "; dict_get segmentation (Some "mood") "N/A"; "</span>"; PyStr.nl;
      "                </div>"; PyStr.nl;
      "                <div class="; PyStr.dq; "segmentation-item"; PyStr.dq; ">"; PyStr.nl;
      "                    <span>👔</span>"; PyStr.nl;
      "                    <span>Style: "; dict_get segmentation (Some "style") "N/A"; "</span>"; PyStr.nl;
      "                </div>"; PyStr.nl;
      "            </div>"; PyStr.nl;
      "        </div>"; PyStr.nl;
      "        "; PyStr.nl;
      "        <div class="; PyStr.dq; "ads-grid"; PyStr.dq; ">"; PyStr.nl;
      "            "; card_age; PyStr.nl;
      "            "; card_gender; PyStr.nl;
      "            "; card_mood; PyStr.nl;
      "            "; card_style; PyStr.nl;
      "        </div>"; PyStr.nl;
      "    </div>"; PyStr.nl;
      "    " ].

Definition render (env : Env) (segmentation : gmap string string)
    (selected_ads : gmap string Ad) : Eff.M string :=
  age <- Eff.getitem selected_ads "age" ;;
  gender <- Eff.getitem selected_ads "gender" ;;
  mood <- Eff.getitem selected_ads "mood" ;;
  style <- Eff.getitem selected_ads "style" ;;
  Eff.ret (html_output segmentation
             (format_ad_html env age) (format_ad_html env gender)
             (format_ad_html env mood) (format_ad_html env style)).

(** [request_files] is [request.files]: the uploaded file of each field. *)
Definition process_image (env : Env) (request_files : gmap string string) : Eff.M Response :=
  match request_files !! "image" with
  | None => Eff.ret (with_status (jsonify {[ "error" := "No image uploaded" ]}) 400)
  | Some image_file =>
      r <- read_image env image_file ;;
      match r with
      | inr response => Eff.ret response
      | inl image =>
          segmentation <- segment env image ;;
          selected_ads <- select_ads env segmentation ;;
          html <- render env segmentation selected_ads ;;
          Eff.ret (jsonify {[ "html" := html ]})
      end
  end.

(** ** Categories, for the statements *)

Inductive category : Type := Age | Gender | Mood | Style.

(** The key of a category in [segmentation] and [selected_ads]. *)
Definition category_key (c : category) : string :=
  match c with Age => "age" | Gender => "gender" | Mood => "mood" | Style => "style" end.

(** The name of a category in the title of its fallback advertisement. *)
Definition category_name (c : category) : string :=
  match c with Age => "Age" | Gender => "Gender" | Mood => "Mood" | Style => "Style" end.

Definition catalog (c : category) : gmap string (list Ad) :=
  match c with Age => ads_age | Gender => ads_gender | Mood => ads_mood | Style => ads_style end.

Definition default_ad (c : category) : Ad :=
  match c with
  | Age => default_age_ad
  | Gender => default_gender_ad
  | Mood => default_mood_ad
  | Style => default_style_ad
  end.

(** Every label the catalogs are keyed by. *)
Definition catalog_keys : gset string :=
  dom ads_age ∪ dom ads_gender ∪ dom ads_mood ∪ dom ads_style.

(** ** Test doubles *)

Definition question_of (key : string) : string :=
  default "" ((list_to_map questions : gmap string string) !! key).

(** An environment whose images are trivial, whose prompt is the question
    itself and whose decoder, model and random generator are given. *)
Definition stub_env (decode : string -> outcome unit)
    (answers : string -> outcome string) (draw : nat -> nat -> nat) : Env :=
  {| Image := unit;
     Image_open := decode;
     image_size := fun _ => "(1, 1)";
     apply_chat_template := fun question => Returns question;
     generate := fun prompt _ => answers prompt;
     randbelow := draw;
     float_str := fun _ => "0.0" |}.

(** A model that fails on the mood question and answers the three others
    with a label of their lists. *)
Definition mood_fails (prompt : string) : outcome string :=
  if String.eqb prompt (question_of "mood") then Raises (Exception "model failure")
  else if String.eqb prompt (question_of "age") then Returns "30-40"
  else if String.eqb prompt (question_of "gender") then Returns "Male"
  else Returns "Casual".

Definition env_mood_fails : Env :=
  stub_env (fun _ => Returns tt) mood_fails (fun _ _ => 0%nat).



(** What [ask_mlx_vlm] gives back for a question: the output of the model,
    or the error text it makes of a failure of its [try] block. *)
Definition model_answer (env : Env) (image : Image env) (question : string) : string :=
  match apply_chat_template env question with
  | Raises e => "Error processing question: " +:+ exn_str e
  | Returns formatted_prompt =>
      match generate env formatted_prompt image with
      | Returns output => output
      | Raises e => "Error processing question: " +:+ exn_str e
      end
  end.

(** The labels the loop of [process_image] records for a list of
    questions, on top of [segmentation]. *)
Definition labels_of (env : Env) (image : Image env)
    (segmentation : gmap string string) (items : list (string * string))
  : gmap string string :=
  foldl (fun acc item =>
           <[ item.1 := extract_answer (model_answer env image item.2) ]> acc)
        segmentation items.

(** The world after some more calls. *)
Definition after (w : world) (calls : list call) : world :=
  {| journal := journal w ++ calls; draws := draws w |}.

(** The part of a rating that [format_stars] compares with [0.5]. *)
Definition fractional_part (rating : Q) : Q := rating - inject_Z (py_int rating).

(** The character [do_title] writes for [c]. *)
Definition titled (previous_is_cased : bool) (c : ascii) : ascii :=
  if previous_is_cased then PyStr.lower c else PyStr.upper c.

(** [head] is not empty and its last character is not stripped. *)
Fixpoint ends_kept (p : ascii -> bool) (head : string) : bool :=
  match head with
  | EmptyString => false
  | String c EmptyString => negb (p c)
  | String _ head' => ends_kept p head'
  end.

(** Whether the last character of [head] is cased, [b] for an empty head. *)
Fixpoint cased_after (b : bool) (head : string) : bool :=
  match head with
  | EmptyString => b
  | String c head' => cased_after (PyStr.iscased c) head'
  end.

(** ** More vocabulary for the statements *)

(** [str.lower] on the ASCII letters. *)
Fixpoint str_lower (s : string) : string :=
  match s with
  | EmptyString => EmptyString
  | String c s' => String (PyStr.lower c) (str_lower s')
  end.

(** Every character of [s] passes [p]. *)
Fixpoint all_chars (p : ascii -> bool) (s : string) : bool :=
  match s with
  | EmptyString => true
  | String c s' => p c && all_chars p s'
  end.

(** [s] starts with a character that is not stripped. *)
Definition starts_kept (p : ascii -> bool) (s : string) : bool :=
  match s with
  | EmptyString => false
  | String c _ => negb (p c)
  end.

(** A text the first two steps of the normalizer leave alone: it holds no
    ['<'], and neither starts nor ends with a space or a period. *)
Definition plain_label (s : string) : bool :=
  negb (PyStr.char_in s "<")
  && starts_kept (PyStr.char_in ". ") s
  && ends_kept (PyStr.char_in ". ") s.

(** The questions put to [apply_chat_template], the prompts put to
    [generate] and the sizes of the sequences put to [random.choice], read
    off a journal in its order. *)
Definition asked (calls : list call) : list string :=
  omap (fun c => match c with ApplyChatTemplate question => Some question | _ => None end)
       calls.

Definition generated (calls : list call) : list string :=
  omap (fun c => match c with Generate prompt => Some prompt | _ => None end) calls.

Definition drawn (calls : list call) : list nat :=
  omap (fun c => match c with RandomChoice n => Some n | _ => None end) calls.

Definition decoded (calls : list call) : list string :=
  omap (fun c => match c with ImageOpen stream => Some stream | _ => None end) calls.

(** The prompts of the questions whose formatting succeeds. *)
Definition prompts_of (env : Env) (qs : list string) : list string :=
  omap (fun question =>
          match apply_chat_template env question with
          | Returns formatted_prompt => Some formatted_prompt
          | Raises _ => None
          end) qs.

(** A model that answers every question with the same text. *)
Definition env_answering (answer : string) : Env :=
  stub_env (fun _ => Returns tt) (fun _ => Returns answer) (fun _ _ => 0%nat).

(** An environment whose prompt formatting fails. *)
Definition env_template_fails : Env :=
  {| Image := unit;
     Image_open := fun _ => Returns tt;
     image_size := fun _ => "(1, 1)";
     apply_chat_template := fun _ => Raises (Exception "no template");
     generate := fun _ _ => Returns "Happy";
     randbelow := fun _ _ => 0%nat;
     float_str := fun _ => "0.0" |}.

(** ** The normalizer on code points *)

(** [str.title] follows the Unicode data of each character, and one
    character may be written as several.  Here a [str] is the list of its
    code points, and the three steps of [extract_answer] are those of
    [PyStr] on such lists.  The Unicode data are given for the code points
    below 128, for U+0130 (capital I with a dot above, code 304: cased, its
    lower case is [i] followed by U+0307) and for U+0307 (the combining dot
    above, code 775: not cased); the statements are about texts of these
    code points. *)
Module Uni.

Definition isupper (c : N) : bool := ((65 <=? c) && (c <=? 90))%N.
Definition islower (c : N) : bool := ((97 <=? c) && (c <=? 122))%N.

(** [_PyUnicode_IsCased]. *)
Definition iscased (c : N) : bool := isupper c || islower c || (c =? 304)%N.

(** [_PyUnicode_ToLowerFull]. *)
Definition lower_full (c : N) : list N :=
  if isupper c then [(c + 32)%N]
  else if (c =? 304)%N then [105%N; 775%N]
  else [c].

(** [_PyUnicode_ToTitleFull]. *)
Definition title_full (c : N) : list N :=
  if islower c then [(c - 32)%N] else [c].

(** The loop of [do_title]: each character gives the characters of its
    title case, or of its lower case when the character before it is
    cased. *)
Fixpoint do_title (previous_is_cased : bool) (s : list N) : list N :=
  match s with
  | [] => []
  | c :: s' =>
      (if previous_is_cased then lower_full c else title_full c)
      ++ do_title (iscased c) s'
  end.

Definition title (s : list N) : list N := do_title false s.

Fixpoint lstrip_by (p : N -> bool) (s : list N) : list N :=
  match s with
  | [] => []
  | c :: s' => if p c then lstrip_by p s' else s
  end.

Fixpoint rstrip_by (p : N -> bool) (s : list N) : list N :=
  match s with
  | [] => []
  | c :: s' =>
      let rest := rstrip_by p s' in
      if p c && match rest with [] => true | _ :: _ => false end then []
      else c :: rest
  end.

(** [s.strip(chars)]. *)
Definition strip (chars : list N) (s : list N) : list N :=
  rstrip_by (fun c => existsb (N.eqb c) chars)
    (lstrip_by (fun c => existsb (N.eqb c) chars) s).

(** [old] starts [s]. *)
Fixpoint starts (old s : list N) : bool :=
  match old, s with
  | [], _ => true
  | _ :: _, [] => false
  | a :: old', b :: s' => (a =? b)%N && starts old' s'
  end.

(** [s.replace(old, new)] for a non-empty [old], as [PyStr.replace_from]. *)
Fixpoint replace_from (skip : nat) (old new s : list N) : list N :=
  match s with
  | [] => []
  | c :: s' =>
      match skip with
      | S k => replace_from k old new s'
      | O =>
          if starts old s
          then new ++ replace_from (length old - 1) old new s'
          else c :: replace_from 0 old new s'
      end
  end.

Definition replace (old new s : list N) : list N := replace_from 0 old new s.

(** The code points of a text of ASCII characters. *)
Fixpoint points (s : string) : list N :=
  match s with
  | EmptyString => []
  | String c s' => N_of_ascii c :: points s'
  end.

(** [extract_answer] (app.py, lines 170-182) on code points. *)
Definition extract_answer (response : list N) : list N :=
  let response := replace (points end_of_utterance) [] response in
  let response := strip (points ". ") response in
  let response := title response in
  response.

End Uni.

(** A character of the ASCII range, and a text of such characters. *)
Definition ascii_char (c : ascii) : bool := (PyStr.code c <? 128)%nat.
Definition is_ascii (s : string) : bool := all_chars ascii_char s.

(** * Properties *)

(** ** Characters *)

Ltac each_ascii c := destruct c as [[] [] [] [] [] [] [] []]; reflexivity.

Lemma iscased_upper c : PyStr.iscased (PyStr.upper c) = PyStr.iscased c.
Proof. each_ascii c. Qed.

Lemma iscased_lower c : PyStr.iscased (PyStr.lower c) = PyStr.iscased c.
Proof. each_ascii c. Qed.

Lemma upper_upper c : PyStr.upper (PyStr.upper c) = PyStr.upper c.
Proof. each_ascii c. Qed.

Lemma lower_lower c : PyStr.lower (PyStr.lower c) = PyStr.lower c.
Proof. each_ascii c. Qed.

Lemma titled_titled b c : titled b (titled b c) = titled b c.
Proof. destruct b; [apply lower_lower | apply upper_upper]. Qed.

Lemma iscased_titled b c : PyStr.iscased (titled b c) = PyStr.iscased c.
Proof. destruct b; [apply iscased_lower | apply iscased_upper]. Qed.

Lemma do_title_cons b c s :
  PyStr.do_title b (String c s) = String (titled b c) (PyStr.do_title (PyStr.iscased c) s).
Proof. reflexivity. Qed.

(** ** [str.title] *)

Lemma do_title_idempotent s : forall b, PyStr.do_title b (PyStr.do_title b s) = PyStr.do_title b s.
Proof.
  induction s as [|c s IH]; intros b; [reflexivity|].
  rewrite !do_title_cons, titled_titled, iscased_titled, IH. reflexivity.
Qed.

Lemma is_empty_do_title b s : PyStr.is_empty (PyStr.do_title b s) = PyStr.is_empty s.
Proof. destruct s; reflexivity. Qed.

(** No lower-case letter follows an uncased character in a title, so the
    marker, whose ['e'] follows ['<'], does not start anywhere in it. *)
Lemma titled_lt b c : titled b c = "<"%char -> c = "<"%char.
Proof.
  destruct b; destruct c as [[] [] [] [] [] [] [] []]; vm_compute; intros H;
    first [reflexivity | discriminate H].
Qed.

Lemma titled_not_e c : titled false c <> "e"%char.
Proof. destruct c as [[] [] [] [] [] [] [] []]; discriminate. Qed.

Lemma prefix_marker_do_title b s :
  String.prefix end_of_utterance (PyStr.do_title b s) = false.
Proof.
  destruct s as [|c1 s]; [reflexivity|].
  rewrite do_title_cons. unfold end_of_utterance.
  cbn [String.prefix].
  destruct (ascii_dec "<" (titled b c1)) as [E1|]; [|reflexivity].
  symmetry in E1. apply titled_lt in E1. subst c1.
  destruct s as [|c2 s]; [reflexivity|].
  rewrite do_title_cons. cbn [String.prefix].
  change (PyStr.iscased "<") with false.
  destruct (ascii_dec "e" (titled false c2)) as [E2|]; [|reflexivity].
  symmetry in E2. destruct (titled_not_e _ E2).
Qed.

Lemma replace_do_title new s : forall b,
  PyStr.replace end_of_utterance new (PyStr.do_title b s) = PyStr.do_title b s.
Proof.
  unfold PyStr.replace.
  induction s as [|c s IH]; intros b; [reflexivity|].
  pose proof (prefix_marker_do_title b (String c s)) as Hp.
  rewrite do_title_cons in *. cbn [PyStr.replace_from]. rewrite Hp, IH. reflexivity.
Qed.

(** ** [str.strip] *)

Section Strip.

Variable p : ascii -> bool.

Lemma rstrip_by_cons c s :
  PyStr.rstrip_by p (String c s)
  = if p c && PyStr.is_empty (PyStr.rstrip_by p s) then EmptyString
    else String c (PyStr.rstrip_by p s).
Proof. reflexivity. Qed.

Lemma rstrip_by_keeps c s :
  p c = false -> PyStr.rstrip_by p (String c s) = String c (PyStr.rstrip_by p s).
Proof. intros H. rewrite rstrip_by_cons, H. reflexivity. Qed.

Lemma rstrip_by_idempotent s :
  PyStr.rstrip_by p (PyStr.rstrip_by p s) = PyStr.rstrip_by p s.
Proof.
  induction s as [|c s IH]; [reflexivity|].
  rewrite rstrip_by_cons.
  destruct (p c && PyStr.is_empty (PyStr.rstrip_by p s)) eqn:E; [reflexivity|].
  rewrite rstrip_by_cons, IH, E. reflexivity.
Qed.

Lemma lstrip_by_idempotent s :
  PyStr.lstrip_by p (PyStr.lstrip_by p s) = PyStr.lstrip_by p s.
Proof.
  induction s as [|c s IH]; [reflexivity|].
  simpl. destruct (p c) eqn:E; [exact IH|]. simpl. rewrite E. reflexivity.
Qed.

Lemma lstrip_rstrip_comm s :
  PyStr.lstrip_by p (PyStr.rstrip_by p s) = PyStr.rstrip_by p (PyStr.lstrip_by p s).
Proof.
  induction s as [|c s IH]; [reflexivity|].
  rewrite rstrip_by_cons. cbn [PyStr.lstrip_by].
  destruct (p c) eqn:E; cbn [andb].
  - destruct (PyStr.rstrip_by p s) eqn:R; cbn [PyStr.is_empty].
    + rewrite <- IH. reflexivity.
    + rewrite <- IH. cbn [PyStr.lstrip_by]. rewrite E. reflexivity.
  - cbn [PyStr.lstrip_by]. rewrite E, rstrip_by_cons, E. reflexivity.
Qed.

Lemma strip_by_idempotent s :
  PyStr.strip_by p (PyStr.strip_by p s) = PyStr.strip_by p s.
Proof.
  unfold PyStr.strip_by.
  rewrite (lstrip_rstrip_comm (PyStr.lstrip_by p s)).
  rewrite lstrip_by_idempotent, rstrip_by_idempotent. reflexivity.
Qed.

(** Stripping and titling commute when the stripped characters are
    uncased and [do_title] neither makes nor unmakes one. *)
Hypothesis p_titled : forall b c, p (titled b c) = p c.
Hypothesis p_uncased : forall c, p c = true -> PyStr.iscased c = false.

Lemma rstrip_by_do_title s : forall b,
  PyStr.rstrip_by p (PyStr.do_title b s) = PyStr.do_title b (PyStr.rstrip_by p s).
Proof.
  induction s as [|c s IH]; intros b; [reflexivity|].
  rewrite do_title_cons, !rstrip_by_cons, p_titled, IH, is_empty_do_title.
  destruct (p c && PyStr.is_empty (PyStr.rstrip_by p s)); reflexivity.
Qed.

Lemma lstrip_by_do_title s :
  PyStr.lstrip_by p (PyStr.do_title false s) = PyStr.do_title false (PyStr.lstrip_by p s).
Proof.
  induction s as [|c s IH]; [reflexivity|].
  rewrite do_title_cons. cbn [PyStr.lstrip_by]. rewrite p_titled.
  destruct (p c) eqn:E.
  - rewrite (p_uncased c E). exact IH.
  - reflexivity.
Qed.

Lemma strip_by_title s :
  PyStr.strip_by p (PyStr.title s) = PyStr.title (PyStr.strip_by p s).
Proof.
  unfold PyStr.strip_by, PyStr.title.
  rewrite lstrip_by_do_title, rstrip_by_do_title. reflexivity.
Qed.

End Strip.

Lemma period_space_titled b c :
  PyStr.char_in ". " (titled b c) = PyStr.char_in ". " c.
Proof. destruct b; each_ascii c. Qed.

Lemma period_space_uncased c :
  PyStr.char_in ". " c = true -> PyStr.iscased c = false.
Proof. destruct c as [[] [] [] [] [] [] [] []]; vm_compute; intros H; first [reflexivity | discriminate H]. Qed.

Lemma strip_title s :
  PyStr.strip ". " (PyStr.title s) = PyStr.title (PyStr.strip ". " s).
Proof. apply strip_by_title; [apply period_space_titled | apply period_space_uncased]. Qed.

(** ** The answer normalizer *)

Lemma extract_answer_unfold s :
  extract_answer s = PyStr.title (PyStr.strip ". " (PyStr.replace end_of_utterance "" s)).
Proof. reflexivity. Qed.

(** A title is a fixed point of the normalizer once it is stripped. *)
Lemma extract_answer_title s :
  extract_answer (PyStr.title s) = PyStr.title (PyStr.strip ". " s).
Proof.
  rewrite extract_answer_unfold. unfold PyStr.title at 2.
  rewrite replace_do_title. fold (PyStr.title s).
  rewrite strip_title. unfold PyStr.title. apply do_title_idempotent.
Qed.

Lemma catalog_keys_eq :
  catalog_keys
  = {[ "20-30"; "30-40"; "40-50"; "50+"; "Male"; "Female"; "Happy"; "Neutral";
       "Sad"; "Sporty"; "Casual"; "Formal"; "Vintage" ]}.
Proof.
  unfold catalog_keys, ads_age, ads_gender, ads_mood, ads_style.
  cbn [list_to_map foldr uncurry fst snd]. rewrite !dom_insert_L, !dom_empty_L.
  set_solver.
Qed.

(** C3. The normalizer maps [" happy. "] to ["Happy"] and
    ["50+<end_of_utterance>"] to ["50+"], and putting ["50+"], which has no
    letter, in title case changes nothing. *)
Theorem extract_answer_examples :
  extract_answer " happy. " = "Happy"
  /\ extract_answer "50+<end_of_utterance>" = "50+"
  /\ PyStr.title "50+" = "50+".
Proof. repeat split; reflexivity. Qed.

(** In the reading on ASCII text, normalizing a normalized text changes
    nothing, and every key of the four catalogs is returned as it is. *)
Lemma extract_answer_twice s : extract_answer (extract_answer s) = extract_answer s.
Proof.
  rewrite (extract_answer_unfold s), extract_answer_title.
  unfold PyStr.strip. rewrite strip_by_idempotent. reflexivity.
Qed.

Lemma catalog_keys_fixed :
  set_Forall (fun label => is_ascii label = true /\ extract_answer label = label)
    catalog_keys.
Proof.
  rewrite catalog_keys_eq. intros label Hin.
  repeat (apply elem_of_union in Hin as [Hin|Hin]);
    apply elem_of_singleton in Hin; subst label; split; reflexivity.
Qed.

(** C2, at the input that separates the code from the claim: a trailing
    line feed is whitespace, yet [strip(". ")] keeps it.  For
    ["Happy" + line feed] the code returns the text with its line feed,
    where trimming all whitespace gives ["Happy"]; the label is then no key
    of the mood catalog and the fallback list is used. *)
Theorem extract_answer_keeps_line_feed :
  PyStr.isspace (ascii_of_nat 10) = true
  /\ extract_answer ("Happy" +:+ PyStr.nl) = "Happy" +:+ PyStr.nl
  /\ normalize_as_specified ("Happy" +:+ PyStr.nl) = "Happy"
  /\ extract_answer ("Happy" +:+ PyStr.nl) <> "Happy"
  /\ dict_get ads_mood (Some (extract_answer ("Happy" +:+ PyStr.nl))) [default_mood_ad]
     = [default_mood_ad]
  /\ dict_get ads_mood (Some (normalize_as_specified ("Happy" +:+ PyStr.nl))) [default_mood_ad]
     <> [default_mood_ad].
Proof.
  repeat split; try reflexivity; try (vm_compute; discriminate).
Qed.

(** ** Star rendering *)

Lemma append_cons c s t : String c s +:+ t = String c (s +:+ t).
Proof. reflexivity. Qed.

Lemma append_assoc s t u : (s +:+ t) +:+ u = s +:+ (t +:+ u).
Proof.
  induction s as [|c s IH]; [reflexivity|]. rewrite !append_cons, IH. reflexivity.
Qed.

Lemma append_empty_r s : s +:+ "" = s.
Proof.
  induction s as [|c s IH]; [reflexivity|]. rewrite append_cons, IH. reflexivity.
Qed.

Lemma prefix_empty s : String.prefix "" s = true.
Proof. destruct s; reflexivity. Qed.

Lemma prefix_append head s : String.prefix head (head +:+ s) = true.
Proof.
  induction head as [|c head IH]; [apply prefix_empty|].
  rewrite append_cons. cbn [String.prefix].
  destruct (ascii_dec c c) as [_|Hne]; [exact IH | destruct (Hne eq_refl)].
Qed.

Lemma count_filled_star_cons s :
  PyStr.count_at filled_star (filled_star +:+ s) = S (PyStr.count_at filled_star s).
Proof.
  unfold filled_star. cbv [String.append]. cbn. rewrite prefix_empty. reflexivity.
Qed.

Lemma count_half_star_cons s :
  PyStr.count_at half_star (filled_star +:+ s) = PyStr.count_at half_star s.
Proof. unfold filled_star, half_star. cbv [String.append]. reflexivity. Qed.

Lemma count_filled_star_repeat n tail :
  PyStr.count_at filled_star (PyStr.repeat_nat filled_star n +:+ tail)
  = (n + PyStr.count_at filled_star tail)%nat.
Proof.
  induction n as [|n IH]; [reflexivity|].
  cbn [PyStr.repeat_nat]. rewrite append_assoc, count_filled_star_cons, IH.
  reflexivity.
Qed.

Lemma count_half_star_repeat n tail :
  PyStr.count_at half_star (PyStr.repeat_nat filled_star n +:+ tail)
  = PyStr.count_at half_star tail.
Proof.
  induction n as [|n IH]; [reflexivity|].
  cbn [PyStr.repeat_nat]. rewrite append_assoc, count_half_star_cons, IH.
  reflexivity.
Qed.

Lemma format_stars_shape rating :
  format_stars rating
  = PyStr.repeat_nat filled_star (Z.to_nat (py_int rating))
    +:+ (if Qle_bool 0.5 (fractional_part rating) then half_star else "").
Proof.
  unfold format_stars, fractional_part, PyStr.mul.
  destruct (Qle_bool 0.5 (rating - inject_Z (py_int rating))); [reflexivity|].
  rewrite append_empty_r. reflexivity.
Qed.

(** For a rating that is not negative, [int] gives its integer part. *)
Lemma py_int_integer_part rating :
  (0 <= rating)%Q ->
  (inject_Z (py_int rating) <= rating)%Q /\ (rating < inject_Z (py_int rating) + 1)%Q.
Proof.
  destruct rating as [n d]. unfold Qle, Qlt, py_int. cbn. intros Hn.
  assert (Hn' : (0 <= n)%Z) by lia.
  rewrite Z.quot_div_nonneg by lia.
  pose proof (Z.mul_div_le n (Z.pos d) ltac:(lia)).
  pose proof (Z.mul_succ_div_gt n (Z.pos d) ltac:(lia)).
  split; nia.
Qed.

Lemma count_star_format_stars rating :
  PyStr.count_at filled_star (format_stars rating) = Z.to_nat (py_int rating).
Proof.
  rewrite format_stars_shape, count_filled_star_repeat.
  destruct (Qle_bool 0.5 (fractional_part rating)); cbn; lia.
Qed.

Lemma count_half_format_stars rating :
  PyStr.count_at half_star (format_stars rating)
  = if Qle_bool 0.5 (fractional_part rating) then 1%nat else 0%nat.
Proof.
  rewrite format_stars_shape, count_half_star_repeat.
  destruct (Qle_bool 0.5 (fractional_part rating)); reflexivity.
Qed.

(** ** The advertisement card *)

Lemma concat_cons x xs : String.concat "" (x :: xs) = x +:+ String.concat "" xs.
Proof.
  destruct xs as [|y ys]; [symmetry; apply append_empty_r | reflexivity].
Qed.

Lemma concat_app l1 l2 :
  String.concat "" (l1 ++ l2)%list = String.concat "" l1 +:+ String.concat "" l2.
Proof.
  induction l1 as [|x l1 IH]; [reflexivity|].
  rewrite <- app_comm_cons, !concat_cons, IH, append_assoc. reflexivity.
Qed.

Lemma contains_append_l a s sub : PyStr.contains s sub -> PyStr.contains (a +:+ s) sub.
Proof.
  intros (before & after & ->). exists (a +:+ before), after.
  rewrite !append_assoc. reflexivity.
Qed.

Lemma contains_prefix sub t : PyStr.contains (sub +:+ t) sub.
Proof. exists "", t. reflexivity. Qed.

(** The pieces of a card from the stars on. *)
Lemma rating_pieces stars text rest :
  String.concat "" (stars :: " (" :: text :: ")</span>" :: rest)
  = (stars +:+ " (" +:+ text +:+ ")") +:+ "</span>" +:+ String.concat "" rest.
Proof. rewrite !concat_cons, !append_assoc. reflexivity. Qed.

Ltac split_before_stars l k :=
  lazymatch l with
  | format_stars _ :: _ => k (@nil string)
  | ?x :: ?l' => split_before_stars l' ltac:(fun before => k (x :: before))
  end.

Ltac card_shows_rating :=
  lazymatch goal with
  | |- PyStr.contains (String.concat "" ?l) _ =>
      split_before_stars l ltac:(fun before =>
        change l with (before ++ drop (List.length before) l)%list)
  end;
  rewrite concat_app; cbn [drop List.length];
  apply contains_append_l; rewrite rating_pieces; apply contains_prefix.

Lemma format_ad_html_shows_rating env ad :
  PyStr.contains (format_ad_html env ad)
    (format_stars (rating ad) +:+ " (" +:+ float_str env (rating ad) +:+ ")").
Proof. unfold format_ad_html. card_shows_rating. Qed.

Lemma format_ad_html_module_shows_rating env ad :
  PyStr.contains (format_ad_html_module env ad)
    (format_stars (rating ad) +:+ " (" +:+ float_str env (rating ad) +:+ ")").
Proof. unfold format_ad_html_module. card_shows_rating. Qed.

Lemma py_int_floor rating : (0 <= rating)%Q -> py_int rating = Qfloor rating.
Proof.
  destruct rating as [n d]. unfold Qle, py_int. cbn. intros Hn.
  apply Z.quot_div_nonneg; lia.
Qed.

(** C7. For the rating of an advertisement, a number from 0 to 5: its stars
    are as many filled stars as the integer part of the rating, followed by
    one half star exactly when the rest of the rating is at least 0.5 and by
    nothing otherwise; the card of the advertisement shows these stars and
    then the rating between parentheses. *)
Theorem format_stars_rendering (env : Env) (ad : Ad) :
  (0 <= rating ad)%Q -> (rating ad <= 5)%Q ->
  PyStr.count_at filled_star (format_stars (rating ad)) = Z.to_nat (Qfloor (rating ad))
  /\ (PyStr.count_at half_star (format_stars (rating ad)) = 1%nat
      <-> (0.5 <= rating ad - inject_Z (Qfloor (rating ad)))%Q)
  /\ (PyStr.count_at half_star (format_stars (rating ad)) = 0%nat
      <-> ~ (0.5 <= rating ad - inject_Z (Qfloor (rating ad)))%Q)
  /\ format_stars (rating ad)
     = PyStr.repeat_nat filled_star (Z.to_nat (Qfloor (rating ad)))
       +:+ PyStr.repeat_nat half_star (PyStr.count_at half_star (format_stars (rating ad)))
  /\ PyStr.contains (format_ad_html env ad)
       (format_stars (rating ad) +:+ " (" +:+ float_str env (rating ad) +:+ ")").
Proof.
  intros Hlow _.
  pose proof (py_int_floor (rating ad) Hlow) as Hfloor.
  pose proof (Qle_bool_iff 0.5 (fractional_part (rating ad))) as Hle.
  rewrite count_star_format_stars, count_half_format_stars.
  rewrite (format_stars_shape (rating ad)) at 1.
  unfold fractional_part in *. rewrite Hfloor in *.
  split; [reflexivity|].
  destruct (Qle_bool 0.5 (rating ad - inject_Z (Qfloor (rating ad)))).
  - repeat split; try tauto; try discriminate. apply format_ad_html_shows_rating.
  - assert (Hnot : ~ (0.5 <= rating ad - inject_Z (Qfloor (rating ad)))%Q)
      by (intros H; apply Hle in H; discriminate).
    repeat split; try tauto; try discriminate. apply format_ad_html_shows_rating.
Qed.

Lemma format_stars_rendering_witness :
  (0 <= rating (Ad_init "Ultra Boost X Sneakers"
                  "Limited edition sneakers with cutting-edge comfort technology"
                  "$199.99" 4.8))%Q
  /\ (rating (Ad_init "Ultra Boost X Sneakers"
                "Limited edition sneakers with cutting-edge comfort technology"
                "$199.99" 4.8) <= 5)%Q
  /\ PyStr.count_at filled_star (format_stars 4.8) = 4%nat.
Proof.
  assert (Hlow : (0 <= rating (Ad_init "Ultra Boost X Sneakers"
                    "Limited edition sneakers with cutting-edge comfort technology"
                    "$199.99" 4.8))%Q) by (unfold Qle; cbn; lia).
  assert (Hhigh : (rating (Ad_init "Ultra Boost X Sneakers"
                    "Limited edition sneakers with cutting-edge comfort technology"
                    "$199.99" 4.8) <= 5)%Q) by (unfold Qle; cbn; lia).
  split; [exact Hlow|]. split; [exact Hhigh|].
  destruct (format_stars_rendering env_mood_fails _ Hlow Hhigh) as [Hstars _].
  exact Hstars.
Defined.

(** ** The request handler: no image, unreadable image *)

Lemma after_after w l1 l2 : after (after w l1) l2 = after w (l1 ++ l2).
Proof. unfold after. cbn. rewrite <- app_assoc. reflexivity. Qed.

Lemma record_after c w : Eff.record c w = (Returns tt, after w [c]).
Proof. reflexivity. Qed.

Lemma extern_after {A} c (r : outcome A) w : Eff.extern c r w = (r, after w [c]).
Proof. reflexivity. Qed.

(** C8. Without an ["image"] field the handler answers 400 with the body
    [{"error": "No image uploaded"}] and leaves the world as it was: nothing
    is logged, decoded, asked of the model or drawn. *)
Theorem process_image_without_image env (request_files : gmap string string) w :
  request_files !! "image" = None ->
  process_image env request_files w
  = (Returns {| body := {[ "error" := "No image uploaded" ]}; status := 400 |}, w).
Proof.
  intros Hnone. unfold process_image. rewrite Hnone. reflexivity.
Qed.

Lemma process_image_without_image_witness :
  ({[ "file" := "bytes" ]} : gmap string string) !! "image" = None
  /\ process_image env_mood_fails {[ "file" := "bytes" ]} initial_world
     = (Returns {| body := {[ "error" := "No image uploaded" ]}; status := 400 |},
        initial_world).
Proof.
  split; [reflexivity|].
  apply (process_image_without_image env_mood_fails {[ "file" := "bytes" ]} initial_world).
  reflexivity.
Defined.

Lemma read_image_failure env image_file e w :
  Image_open env image_file = Raises e ->
  read_image env image_file w
  = (Returns (inr {| body := {[ "error" := exn_str e ]}; status := 500 |}),
     after w [ImageOpen image_file; Log ERROR ("Error reading image: " +:+ exn_str e)]).
Proof.
  intros Hfail. unfold read_image, Eff.try_except, Eff.bind.
  rewrite extern_after, Hfail. unfold Eff.logger_error.
  rewrite record_after, after_after. reflexivity.
Qed.



(** ** The model wrapper and the segmentation loop *)

Ltac eff_step :=
  unfold Eff.bind, Eff.try_except, Eff.logger_info, Eff.logger_error, Eff.ret;
  rewrite ?record_after, ?extern_after; cbv beta iota.

Lemma ask_mlx_vlm_runs env image question w :
  exists calls,
    ask_mlx_vlm env image question w
    = (Returns (model_answer env image question), after w calls).
Proof.
  unfold ask_mlx_vlm, model_answer. eff_step.
  destruct (apply_chat_template env question) as [prompt|e]; cbv beta iota.
  - eff_step. destruct (generate env prompt image) as [output|e]; cbv beta iota.
    + eff_step. rewrite !after_after. eexists. reflexivity.
    + eff_step. rewrite !after_after. eexists. reflexivity.
  - eff_step. rewrite !after_after. eexists. reflexivity.
Qed.

Lemma ask_mlx_vlm_generate_failure env image question prompt e w :
  apply_chat_template env question = Returns prompt ->
  generate env prompt image = Raises e ->
  ask_mlx_vlm env image question w
  = (Returns ("Error processing question: " +:+ exn_str e),
     after w [ Log INFO ("Processing question: " +:+ question);
               ApplyChatTemplate question;
               Generate prompt;
               Log ERROR ("Error in ask_mlx_vlm: " +:+ exn_str e) ]).
Proof.
  intros Hprompt Hfail. unfold ask_mlx_vlm. eff_step.
  rewrite Hprompt. cbv beta iota. eff_step. rewrite Hfail. cbv beta iota.
  eff_step. rewrite !after_after. reflexivity.
Qed.

(** One turn of the loop always ends in its [try] branch: the label it
    records is the normalized answer of [ask_mlx_vlm], and its last call is
    the log of that label. *)
Lemma segment_one_runs env image (segmentation : gmap string string) key question w :
  exists calls,
    segment_one env image segmentation (key, question) w
    = (Returns (<[ key := extract_answer (model_answer env image question) ]> segmentation),
       after w (calls ++ [ Log INFO ("Segmentation result for " +:+ key +:+ ": "
                                     +:+ extract_answer (model_answer env image question)) ])).
Proof.
  unfold segment_one. eff_step.
  destruct (ask_mlx_vlm_runs env image question
              (after w [Log INFO ("Segmenting for " +:+ key +:+ " using question: " +:+ question)]))
    as [calls ->].
  cbv beta iota zeta. unfold Eff.getitem. rewrite lookup_insert_eq.
  eff_step. rewrite !after_after.
  eexists. rewrite app_assoc. reflexivity.
Qed.

Lemma for_each_segment_one env image items : forall (segmentation : gmap string string) w,
  exists calls,
    Eff.for_each items (segment_one env image) segmentation w
    = (Returns (labels_of env image segmentation items), after w calls).
Proof.
  induction items as [|[key question] items IH]; intros segmentation w.
  - exists []. unfold after. rewrite app_nil_r. destruct w; reflexivity.
  - cbn [Eff.for_each]. unfold Eff.bind.
    destruct (segment_one_runs env image segmentation key question w) as [calls ->].
    destruct (IH (<[ key := extract_answer (model_answer env image question) ]> segmentation)
                 (after w (calls ++ [ Log INFO ("Segmentation result for " +:+ key +:+ ": "
                    +:+ extract_answer (model_answer env image question)) ])))
      as [calls' ->].
    rewrite after_after. eexists. reflexivity.
Qed.

(** The segmentation never fails, and its result has the four keys, each
    with the normalized answer to the question of its category. *)
Lemma segment_runs env image w :
  exists calls,
    segment env image w = (Returns (labels_of env image ∅ questions), after w calls).
Proof. apply for_each_segment_one. Qed.

Lemma segment_keys env image :
  dom (labels_of env image ∅ questions) = {[ "age"; "gender"; "mood"; "style" ]}.
Proof.
  unfold labels_of, questions. cbn [foldl fst snd].
  rewrite !dom_insert_L, dom_empty_L. set_solver.
Qed.

Lemma segment_label env image (c : category) :
  labels_of env image ∅ questions !! category_key c
  = Some (extract_answer (model_answer env image (question_of (category_key c)))).
Proof.
  unfold labels_of, questions. cbn [foldl fst snd].
  destruct c; cbn [category_key];
    repeat (rewrite lookup_insert_ne by discriminate);
    rewrite lookup_insert_eq; reflexivity.
Qed.

(** How the three steps of the normalizer pass over a known head of the
    text. *)
Lemma prefix_marker_other c s :
  c <> "<"%char -> String.prefix end_of_utterance (String c s) = false.
Proof.
  intros Hc. unfold end_of_utterance. cbn [String.prefix].
  destruct (ascii_dec "<" c) as [E|]; [destruct (Hc (eq_sym E)) | reflexivity].
Qed.

Lemma replace_keeps_head new head s :
  PyStr.char_in head "<" = false ->
  PyStr.replace end_of_utterance new (head +:+ s)
  = head +:+ PyStr.replace end_of_utterance new s.
Proof.
  unfold PyStr.replace.
  induction head as [|c head IH]; intros Hin; [reflexivity|].
  cbn [PyStr.char_in] in Hin. apply orb_false_iff in Hin as [Hc Hin].
  apply Ascii.eqb_neq in Hc.
  rewrite !append_cons. cbn [PyStr.replace_from].
  rewrite prefix_marker_other by congruence.
  rewrite (IH Hin). reflexivity.
Qed.

Lemma lstrip_by_keeps p c s : p c = false -> PyStr.lstrip_by p (String c s) = String c s.
Proof. intros H. cbn [PyStr.lstrip_by]. rewrite H. reflexivity. Qed.

Lemma lstrip_by_keeps_head p c head s :
  p c = false -> PyStr.lstrip_by p (String c head +:+ s) = String c head +:+ s.
Proof. intros H. rewrite append_cons. apply lstrip_by_keeps, H. Qed.

Lemma rstrip_by_keeps_head p head s :
  ends_kept p head = true ->
  PyStr.rstrip_by p (head +:+ s) = head +:+ PyStr.rstrip_by p s.
Proof.
  induction head as [|c head IH]; intros Hend; [discriminate|].
  rewrite !append_cons, rstrip_by_cons.
  destruct head as [|d head].
  - cbn [ends_kept] in Hend. apply negb_true_iff in Hend. rewrite Hend. reflexivity.
  - rewrite (IH Hend), append_cons. cbn [PyStr.is_empty]. rewrite andb_false_r.
    reflexivity.
Qed.

Lemma do_title_append head s : forall b,
  PyStr.do_title b (head +:+ s)
  = PyStr.do_title b head +:+ PyStr.do_title (cased_after b head) s.
Proof.
  induction head as [|c head IH]; intros b; [reflexivity|].
  rewrite append_cons, !do_title_cons, append_cons, IH. reflexivity.
Qed.

(** The text [ask_mlx_vlm] makes of a failure is normalized into a text
    that begins with its title-cased head. *)
Lemma extract_answer_error_text message :
  exists rest,
    extract_answer ("Error processing question: " +:+ message)
    = "Error Processing Question:" +:+ rest.
Proof.
  rewrite extract_answer_unfold.
  rewrite (replace_keeps_head "" "Error processing question: ") by reflexivity.
  change ("Error processing question: " +:+ ?s)
    with ("Error processing question:" +:+ (" " +:+ s)).
  unfold PyStr.strip, PyStr.strip_by.
  rewrite (lstrip_by_keeps_head _ "E" "rror processing question:") by reflexivity.
  rewrite (rstrip_by_keeps_head _ "Error processing question:") by reflexivity.
  unfold PyStr.title. rewrite do_title_append.
  eexists. reflexivity.
Qed.

Lemma error_text_is_not_NA message :
  String.prefix "Error Processing Question:"
    (extract_answer ("Error processing question: " +:+ message)) = true
  /\ extract_answer ("Error processing question: " +:+ message) <> "N/A".
Proof.
  destruct (extract_answer_error_text message) as [rest ->].
  split; [apply prefix_append | rewrite append_cons; discriminate].
Qed.

(** C10. [ask_mlx_vlm] always returns: no exception reaches its caller.
    When [generate] raises [e], it returns the text
    ["Error processing question: " + str(e)] after logging the error, and the
    loop of [process_image] takes that text for an answer: it records its
    normalized form, which begins with ["Error Processing Question:"] and so
    is not ["N/A"], and ends the turn in the [try] branch, the log of the
    [except] branch never being written. *)
Theorem ask_mlx_vlm_never_raises env image question w :
  (exists output w', ask_mlx_vlm env image question w = (Returns output, w'))
  /\ forall prompt e,
       apply_chat_template env question = Returns prompt ->
       generate env prompt image = Raises e ->
       let answer := "Error processing question: " +:+ exn_str e in
       ask_mlx_vlm env image question w
       = (Returns answer,
          after w [ Log INFO ("Processing question: " +:+ question);
                    ApplyChatTemplate question;
                    Generate prompt;
                    Log ERROR ("Error in ask_mlx_vlm: " +:+ exn_str e) ])
       /\ (forall (segmentation : gmap string string) key,
             segment_one env image segmentation (key, question) w
             = (Returns (<[ key := extract_answer answer ]> segmentation),
                after w [ Log INFO ("Segmenting for " +:+ key +:+ " using question: "
                                    +:+ question);
                          Log INFO ("Processing question: " +:+ question);
                          ApplyChatTemplate question;
                          Generate prompt;
                          Log ERROR ("Error in ask_mlx_vlm: " +:+ exn_str e);
                          Log INFO ("Segmentation result for " +:+ key +:+ ": "
                                    +:+ extract_answer answer) ]))
       /\ String.prefix "Error Processing Question:" (extract_answer answer) = true
       /\ extract_answer answer <> "N/A".
Proof.
  split.
  - destruct (ask_mlx_vlm_runs env image question w) as [calls Hrun]. eauto.
  - intros prompt e Hprompt Hfail answer. subst answer.
    split; [exact (ask_mlx_vlm_generate_failure _ _ _ _ _ w Hprompt Hfail)|].
    split; [|apply error_text_is_not_NA].
    intros segmentation key. unfold segment_one. eff_step.
    rewrite (ask_mlx_vlm_generate_failure _ _ _ _ _ _ Hprompt Hfail).
    cbv beta iota zeta. unfold Eff.getitem. rewrite lookup_insert_eq.
    eff_step. rewrite !after_after. reflexivity.
Qed.

Lemma ask_mlx_vlm_never_raises_witness :
  apply_chat_template env_mood_fails (question_of "mood") = Returns (question_of "mood")
  /\ generate env_mood_fails (question_of "mood") tt = Raises (Exception "model failure")
  /\ fst (ask_mlx_vlm env_mood_fails tt (question_of "mood") initial_world)
     = Returns "Error processing question: model failure"
  /\ extract_answer "Error processing question: model failure" <> "N/A".
Proof.
  split; [reflexivity|]. split; [reflexivity|].
  destruct (ask_mlx_vlm_never_raises env_mood_fails tt (question_of "mood") initial_world)
    as [_ Hfail].
  destruct (Hfail (question_of "mood") (Exception "model failure") eq_refl eq_refl)
    as (Hask & _ & _ & Hne).
  split; [rewrite Hask; reflexivity | exact Hne].
Defined.

(** C1, at the input that separates the code from the claim: a model that
    raises on the mood question and answers the three others.  The result
    has the four keys and the three other labels, but the mood label is the
    normalized error text of [ask_mlx_vlm], not ["N/A"]. *)
Theorem segment_generate_failure_not_NA :
  generate env_mood_fails (question_of "mood") tt = Raises (Exception "model failure")
  /\ fst (segment env_mood_fails tt initial_world)
     = Returns (list_to_map
                  [ ("age", "30-40"); ("gender", "Male");
                    ("mood", "Error Processing Question: Model Failure");
                    ("style", "Casual") ])
  /\ "Error Processing Question: Model Failure" <> "N/A".
Proof.
  split; [reflexivity|]. split; [|discriminate].
  vm_compute. reflexivity.
Qed.

(** ** The ad selector *)

Lemma random_choice_member {A} env (seq : list A) w :
  seq <> [] ->
  exists x,
    x ∈ seq
    /\ Eff.random_choice env seq w
       = (Returns x,
          {| journal := journal w ++ [RandomChoice (length seq)];
             draws := S (draws w) |}).
Proof.
  intros Hne. unfold Eff.random_choice.
  assert (Hlen : (length seq <> 0)%nat) by (destruct seq; [congruence | discriminate]).
  pose proof (Nat.mod_upper_bound (randbelow env (draws w) (length seq)) (length seq) Hlen)
    as Hlt.
  destruct (lookup_lt_is_Some_2 seq _ Hlt) as [x Hx].
  rewrite Hx. exists x. split; [|reflexivity].
  eapply list_elem_of_lookup_2, Hx.
Qed.

Lemma catalog_lists_nonempty c :
  map_Forall (fun _ (ads : list Ad) => ads <> []) (catalog c).
Proof.
  destruct c; unfold catalog, ads_age, ads_gender, ads_mood, ads_style;
    cbn [list_to_map foldr fst snd];
    repeat (apply map_Forall_insert_2; [discriminate|]);
    apply map_Forall_empty.
Qed.

Lemma dict_get_catalog_nonempty c key : dict_get (catalog c) key [default_ad c] <> [].
Proof.
  destruct key as [label|]; cbn [dict_get]; [|discriminate].
  destruct (catalog c !! label) as [ads|] eqn:E; cbn [default]; [|discriminate].
  exact (catalog_lists_nonempty c label ads E).
Qed.

(** Runs the next [random.choice], which is the one of category [c]. *)
Ltac draw_for c x Hin :=
  lazymatch goal with
  | |- context [Eff.random_choice ?env ?seq ?w] =>
      destruct (random_choice_member env seq w (dict_get_catalog_nonempty c _))
        as (x & Hin & ->)
  end;
  cbv beta iota.

(** The selection never fails; each selected advertisement is drawn from
    the list [dict.get] gives for its category. *)
Lemma select_ads_runs env (segmentation : gmap string string) w :
  exists selected_ads w',
    select_ads env segmentation w = (Returns selected_ads, w')
    /\ forall c, exists ad,
         selected_ads !! category_key c = Some ad
         /\ ad ∈ dict_get (catalog c) (segmentation !! category_key c) [default_ad c].
Proof.
  unfold select_ads, Eff.bind.
  draw_for Age a Ha. draw_for Gender g Hg. draw_for Mood m Hm. draw_for Style s Hs.
  eexists _, _. split; [reflexivity|].
  cbn [list_to_map foldr fst snd].
  intros []; cbn [category_key];
    [exists a | exists g | exists m | exists s];
    (split; [repeat (rewrite lookup_insert_ne by discriminate);
             apply lookup_insert_eq | assumption]).
Qed.

(** C5. When the label of a category is missing from the segmentation
    result or is no key of the catalog of the category, as ["N/A"] is, the
    selection succeeds and selects for that category the fallback
    advertisement, titled ["Default <Category> Ad"], priced ["$0.00"] and
    rated 5.0. *)
Theorem select_ads_fallback env (segmentation : gmap string string) (c : category) w :
  (forall label, segmentation !! category_key c = Some label -> catalog c !! label = None) ->
  exists selected_ads w',
    select_ads env segmentation w = (Returns selected_ads, w')
    /\ selected_ads !! category_key c = Some (default_ad c)
    /\ title (default_ad c) = "Default " +:+ category_name c +:+ " Ad"
    /\ price (default_ad c) = "$0.00"
    /\ (rating (default_ad c) == 5)%Q
    /\ catalog c !! "N/A" = None.
Proof.
  intros Hunknown.
  destruct (select_ads_runs env segmentation w) as (selected_ads & w' & Hrun & Hsel).
  exists selected_ads, w'. split; [exact Hrun|].
  destruct (Hsel c) as (ad & Had & Hin).
  assert (Hlist : dict_get (catalog c) (segmentation !! category_key c) [default_ad c]
                  = [default_ad c]).
  { destruct (segmentation !! category_key c) as [label|] eqn:E; cbn [dict_get];
      [rewrite (Hunknown label eq_refl)|]; reflexivity. }
  rewrite Hlist in Hin. apply list_elem_of_singleton in Hin. subst ad.
  split; [exact Had|].
  destruct c; repeat split; reflexivity.
Qed.

Lemma select_ads_fallback_witness :
  exists selected_ads w',
    select_ads env_mood_fails {[ "mood" := "N/A" ]} initial_world = (Returns selected_ads, w')
    /\ selected_ads !! "mood" = Some default_mood_ad.
Proof.
  destruct (select_ads_fallback env_mood_fails {[ "mood" := "N/A" ]} Mood initial_world)
    as (selected_ads & w' & Hrun & Hmood & _).
  - intros label Hlabel. cbn [category_key] in Hlabel.
    rewrite lookup_singleton_eq in Hlabel. injection Hlabel as <-. reflexivity.
  - exists selected_ads, w'. split; [exact Hrun | exact Hmood].
Defined.

(** C6. When the label of a category is a key of its catalog, the selected
    advertisement is one of the list the catalog has for that label; for the
    mood ["Happy"] that list is the three entries of [ads_mood["Happy"]]. *)
Theorem select_ads_from_catalog env (segmentation : gmap string string)
    (c : category) label ads w :
  segmentation !! category_key c = Some label ->
  catalog c !! label = Some ads ->
  (exists selected_ads w' ad,
      select_ads env segmentation w = (Returns selected_ads, w')
      /\ selected_ads !! category_key c = Some ad
      /\ ad ∈ ads)
  /\ catalog Mood !! "Happy"
     = Some [ Ad_init "Party Planning Bundle"
                "Everything you need for your next celebration" "$199.99" 4.7;
              Ad_init "Adventure Gear Set"
                "Premium outdoor equipment for your next expedition" "$399.99" 4.8;
              Ad_init "Entertainment Package Plus"
                "Stream, game, and enjoy with our premium entertainment system"
                "$599.99" 4.6 ].
Proof.
  intros Hlabel Hads. split; [|reflexivity].
  destruct (select_ads_runs env segmentation w) as (selected_ads & w' & Hrun & Hsel).
  destruct (Hsel c) as (ad & Had & Hin).
  exists selected_ads, w', ad. repeat split; [exact Hrun | exact Had |].
  rewrite Hlabel in Hin. cbn [dict_get] in Hin. rewrite Hads in Hin. exact Hin.
Qed.

Lemma select_ads_from_catalog_witness :
  exists selected_ads w' ad,
    select_ads env_mood_fails {[ "mood" := "Happy" ]} initial_world
    = (Returns selected_ads, w')
    /\ selected_ads !! "mood" = Some ad
    /\ ad ∈ [ Ad_init "Party Planning Bundle"
                "Everything you need for your next celebration" "$199.99" 4.7;
              Ad_init "Adventure Gear Set"
                "Premium outdoor equipment for your next expedition" "$399.99" 4.8;
              Ad_init "Entertainment Package Plus"
                "Stream, game, and enjoy with our premium entertainment system"
                "$599.99" 4.6 ].
Proof.
  destruct (select_ads_from_catalog env_mood_fails {[ "mood" := "Happy" ]} Mood "Happy"
              _ initial_world (lookup_singleton_eq _ _) eq_refl)
    as [Hsel _].
  exact Hsel.
Defined.

(** ** The request handler: a readable image *)

Lemma read_image_success env image_file image w :
  Image_open env image_file = Returns image ->
  read_image env image_file w
  = (Returns (inl image),
     after w [ImageOpen image_file;
              Log INFO ("Received image of size: " +:+ image_size env image)]).
Proof.
  intros Hopen. unfold read_image. eff_step. rewrite Hopen. cbv beta iota.
  eff_step. rewrite !after_after. reflexivity.
Qed.

Lemma render_runs env (segmentation : gmap string string) (selected_ads : gmap string Ad) w :
  (forall c, is_Some (selected_ads !! category_key c)) ->
  exists html, render env segmentation selected_ads w = (Returns html, w).
Proof.
  intros Hkeys. unfold render, Eff.bind, Eff.getitem.
  destruct (Hkeys Age) as [a Ha], (Hkeys Gender) as [g Hg],
           (Hkeys Mood) as [m Hm], (Hkeys Style) as [s Hs].
  cbn [category_key] in Ha, Hg, Hm, Hs. rewrite Ha, Hg, Hm, Hs.
  eexists. reflexivity.
Qed.

(** With a readable image the handler reaches the rendering and answers 200
    with an ["html"] body, whatever the model and the random generator do. *)
Lemma process_image_success env (request_files : gmap string string) image_file image w :
  request_files !! "image" = Some image_file ->
  Image_open env image_file = Returns image ->
  exists html w',
    process_image env request_files w
    = (Returns {| body := {[ "html" := html ]}; status := 200 |}, w').
Proof.
  intros Hfile Hopen. unfold process_image. rewrite Hfile.
  unfold Eff.bind at 1. rewrite (read_image_success _ _ _ _ Hopen).
  unfold Eff.bind at 1.
  destruct (segment_runs env image
              (after w [ImageOpen image_file;
                        Log INFO ("Received image of size: " +:+ image_size env image)]))
    as [calls ->].
  unfold Eff.bind at 1.
  destruct (select_ads_runs env (labels_of env image ∅ questions) (after
              (after w [ImageOpen image_file;
                        Log INFO ("Received image of size: " +:+ image_size env image)])
              calls))
    as (selected_ads & w' & -> & Hsel).
  unfold Eff.bind at 1.
  destruct (render_runs env (labels_of env image ∅ questions) selected_ads w') as [html ->].
  { intros c. destruct (Hsel c) as (ad & Had & _). eauto. }
  exists html, w'. reflexivity.
Qed.

(** ** The normalizer on some answers *)

Example extract_answer_upper_case : extract_answer "HAPPY" = "Happy".
Proof. reflexivity. Qed.

Example extract_answer_every_marker :
  extract_answer "a<end_of_utterance>b<end_of_utterance>" = "Ab".
Proof. reflexivity. Qed.

Example extract_answer_apostrophe : extract_answer "it's 30-40." = "It'S 30-40".
Proof. reflexivity. Qed.

Example extract_answer_not_available : extract_answer "n/a" = "N/A".
Proof. reflexivity. Qed.

Example format_stars_4_8 : format_stars 4.8 = "★★★★½".
Proof. reflexivity. Qed.

Example format_stars_4_4 : format_stars 4.4 = "★★★★".
Proof. reflexivity. Qed.

Example format_stars_5_0 : format_stars 5.0 = "★★★★★".
Proof. reflexivity. Qed.

(** * Further properties of the code *)

(** ** The normalizer: what it leaves alone and what it removes *)

Lemma lower_titled b c : titled b (PyStr.lower c) = titled b c.
Proof. destruct b; each_ascii c. Qed.

Lemma lower_is_lt c : Ascii.eqb "<" (PyStr.lower c) = Ascii.eqb "<" c.
Proof. each_ascii c. Qed.

Lemma period_space_lower c :
  PyStr.char_in ". " (PyStr.lower c) = PyStr.char_in ". " c.
Proof. exact (period_space_titled true c). Qed.

Lemma do_title_str_lower s : forall b, PyStr.do_title b (str_lower s) = PyStr.do_title b s.
Proof.
  induction s as [|c s IH]; intros b; [reflexivity|].
  cbn [str_lower]. rewrite !do_title_cons, lower_titled, iscased_lower, IH. reflexivity.
Qed.

Lemma char_in_str_lower s : PyStr.char_in (str_lower s) "<" = PyStr.char_in s "<".
Proof.
  induction s as [|c s IH]; [reflexivity|].
  cbn [str_lower PyStr.char_in]. rewrite lower_is_lt, IH. reflexivity.
Qed.

Lemma ends_kept_str_lower s :
  ends_kept (PyStr.char_in ". ") (str_lower s) = ends_kept (PyStr.char_in ". ") s.
Proof.
  induction s as [|c s IH]; [reflexivity|].
  destruct s as [|d s].
  - cbn [str_lower ends_kept]. rewrite period_space_lower. reflexivity.
  - exact IH.
Qed.

Lemma plain_label_str_lower s : plain_label (str_lower s) = plain_label s.
Proof.
  unfold plain_label. rewrite char_in_str_lower, ends_kept_str_lower.
  destruct s as [|c s]; [reflexivity|].
  cbn [str_lower starts_kept]. rewrite period_space_lower. reflexivity.
Qed.

Lemma replace_without_lt new s :
  PyStr.char_in s "<" = false -> PyStr.replace end_of_utterance new s = s.
Proof.
  intros Hin. rewrite <- (append_empty_r s) at 1.
  rewrite (replace_keeps_head new s "" Hin). apply append_empty_r.
Qed.

Lemma strip_by_kept p s :
  starts_kept p s = true -> ends_kept p s = true -> PyStr.strip_by p s = s.
Proof.
  intros Hstart Hend. unfold PyStr.strip_by.
  destruct s as [|c s]; [discriminate|].
  cbn [starts_kept] in Hstart. apply negb_true_iff in Hstart.
  rewrite (lstrip_by_keeps p c s Hstart).
  rewrite <- (append_empty_r (String c s)) at 1.
  rewrite (rstrip_by_keeps_head p (String c s) "" Hend). apply append_empty_r.
Qed.

Lemma extract_answer_plain s : plain_label s = true -> extract_answer s = PyStr.title s.
Proof.
  unfold plain_label. intros H.
  apply andb_true_iff in H as [H Hend]. apply andb_true_iff in H as [Hlt Hstart].
  apply negb_true_iff in Hlt.
  rewrite extract_answer_unfold, (replace_without_lt "" s Hlt).
  unfold PyStr.strip. rewrite (strip_by_kept _ s Hstart Hend). reflexivity.
Qed.

Lemma catalog_key_plain_title k :
  k ∈ catalog_keys -> plain_label k = true /\ PyStr.title k = k.
Proof.
  rewrite catalog_keys_eq. intros Hin.
  repeat (apply elem_of_union in Hin as [Hin|Hin]);
    apply elem_of_singleton in Hin; subst k; split; reflexivity.
Qed.

Lemma extract_answer_key_in_any_case s k :
  k ∈ catalog_keys -> str_lower s = str_lower k -> extract_answer s = k.
Proof.
  intros Hk Hsame. destruct (catalog_key_plain_title k Hk) as [Hplain Htitle].
  rewrite extract_answer_plain.
  - unfold PyStr.title in *. rewrite <- (do_title_str_lower s), Hsame, do_title_str_lower.
    exact Htitle.
  - rewrite <- plain_label_str_lower, Hsame, plain_label_str_lower. exact Hplain.
Qed.

(** X1. The normalizer matches the catalog keys without regard to letter
    case: a text that differs from a key only in the case of its letters is
    normalized to that key. *)
Theorem extract_answer_any_case s k :
  k ∈ catalog_keys -> str_lower s = str_lower k -> extract_answer s = k.
Proof. apply extract_answer_key_in_any_case. Qed.

Lemma extract_answer_any_case_witness :
  "Vintage" ∈ catalog_keys
  /\ str_lower "vINTAGE" = str_lower "Vintage"
  /\ extract_answer "vINTAGE" = "Vintage".
Proof.
  assert (Hk : "Vintage" ∈ catalog_keys) by (rewrite catalog_keys_eq; set_solver).
  split; [exact Hk|]. split; [reflexivity|].
  apply (extract_answer_any_case "vINTAGE" "Vintage" Hk). reflexivity.
Defined.

Lemma replace_from_skip head old new s :
  PyStr.replace_from (String.length head) old new (head +:+ s)
  = PyStr.replace_from 0 old new s.
Proof.
  induction head as [|c head IH]; [reflexivity|].
  rewrite append_cons. cbn [String.length PyStr.replace_from]. exact IH.
Qed.

Lemma replace_from_found c old new s :
  PyStr.replace_from 0 (String c old) new (String c old +:+ s)
  = new +:+ PyStr.replace_from 0 (String c old) new s.
Proof.
  pose proof (prefix_append (String c old) s) as Hprefix.
  rewrite append_cons in *. cbn [PyStr.replace_from]. rewrite Hprefix.
  cbn [String.length]. rewrite Nat.sub_succ, Nat.sub_0_r, replace_from_skip.
  reflexivity.
Qed.

Lemma replace_marker_head new s :
  PyStr.replace end_of_utterance new (end_of_utterance +:+ s)
  = new +:+ PyStr.replace end_of_utterance new s.
Proof. unfold PyStr.replace, end_of_utterance. apply replace_from_found. Qed.

(** X2. A marker that comes after a text without ['<'] is removed without
    a trace: the normalized answer is that of the text with the marker cut
    out. *)
Theorem extract_answer_cuts_marker head s :
  PyStr.char_in head "<" = false ->
  extract_answer (head +:+ end_of_utterance +:+ s) = extract_answer (head +:+ s).
Proof.
  intros Hhead. rewrite !extract_answer_unfold.
  rewrite !(replace_keeps_head "" head) by exact Hhead.
  rewrite replace_marker_head. reflexivity.
Qed.

Lemma extract_answer_cuts_marker_witness :
  PyStr.char_in "30-40" "<" = false
  /\ extract_answer ("30-40" +:+ end_of_utterance +:+ ".")
     = extract_answer ("30-40" +:+ ".").
Proof.
  split; [reflexivity|].
  apply (extract_answer_cuts_marker "30-40" "."). reflexivity.
Defined.

Lemma length_replace_from old s : forall skip,
  (String.length (PyStr.replace_from skip old "" s) <= String.length s)%nat.
Proof.
  induction s as [|c s IH]; intros skip; [reflexivity|].
  cbn [PyStr.replace_from]. destruct skip as [|skip].
  - destruct (String.prefix old (String c s)).
    + change ("" +:+ ?x) with x. cbn [String.length].
      specialize (IH (String.length old - 1)%nat). lia.
    + cbn [String.length]. specialize (IH 0%nat). lia.
  - cbn [String.length]. specialize (IH skip). lia.
Qed.

Section Stripped.

Variable p : ascii -> bool.

Lemma length_lstrip_by s :
  (String.length (PyStr.lstrip_by p s) <= String.length s)%nat.
Proof.
  induction s as [|c s IH]; [reflexivity|].
  cbn [PyStr.lstrip_by]. destruct (p c); cbn [String.length]; lia.
Qed.

Lemma length_rstrip_by s :
  (String.length (PyStr.rstrip_by p s) <= String.length s)%nat.
Proof.
  induction s as [|c s IH]; [reflexivity|].
  rewrite rstrip_by_cons.
  destruct (p c && PyStr.is_empty (PyStr.rstrip_by p s)); cbn [String.length]; lia.
Qed.

Lemma lstrip_by_starts s :
  PyStr.lstrip_by p s = "" \/ starts_kept p (PyStr.lstrip_by p s) = true.
Proof.
  induction s as [|c s IH]; [left; reflexivity|].
  cbn [PyStr.lstrip_by]. destruct (p c) eqn:E; [exact IH|].
  right. cbn [starts_kept]. rewrite E. reflexivity.
Qed.

Lemma rstrip_by_starts s :
  starts_kept p s = true -> starts_kept p (PyStr.rstrip_by p s) = true.
Proof.
  destruct s as [|c s]; [discriminate|].
  cbn [starts_kept]. intros H. apply negb_true_iff in H.
  rewrite (rstrip_by_keeps p c s H). cbn [starts_kept]. rewrite H. reflexivity.
Qed.

Lemma rstrip_by_ends s :
  PyStr.rstrip_by p s = "" \/ ends_kept p (PyStr.rstrip_by p s) = true.
Proof.
  induction s as [|c s IH]; [left; reflexivity|].
  rewrite rstrip_by_cons.
  destruct (p c) eqn:E; cbn [andb].
  - destruct (PyStr.rstrip_by p s) as [|d r] eqn:R; cbn [PyStr.is_empty].
    + left. reflexivity.
    + right. destruct IH as [IH|IH]; [discriminate | exact IH].
  - right. destruct (PyStr.rstrip_by p s) as [|d r] eqn:R.
    + cbn [ends_kept]. rewrite E. reflexivity.
    + destruct IH as [IH|IH]; [discriminate | exact IH].
Qed.

Lemma strip_by_ends s :
  PyStr.strip_by p s = ""
  \/ (starts_kept p (PyStr.strip_by p s) = true /\ ends_kept p (PyStr.strip_by p s) = true).
Proof.
  unfold PyStr.strip_by.
  destruct (lstrip_by_starts s) as [-> | Hstart]; [left; reflexivity|].
  destruct (rstrip_by_ends (PyStr.lstrip_by p s)) as [-> | Hend]; [left; reflexivity|].
  right. split; [apply rstrip_by_starts, Hstart | exact Hend].
Qed.

Hypothesis p_titled : forall b c, p (titled b c) = p c.

Lemma starts_kept_do_title b s : starts_kept p (PyStr.do_title b s) = starts_kept p s.
Proof. destruct s as [|c s]; [reflexivity|]. cbn [PyStr.do_title starts_kept]. fold (titled b c). rewrite p_titled. reflexivity. Qed.

Lemma ends_kept_do_title s : forall b, ends_kept p (PyStr.do_title b s) = ends_kept p s.
Proof.
  induction s as [|c s IH]; intros b; [reflexivity|].
  rewrite do_title_cons. destruct s as [|d s].
  - cbn [PyStr.do_title ends_kept]. rewrite p_titled. reflexivity.
  - rewrite do_title_cons. rewrite <- (do_title_cons (PyStr.iscased c) d s).
    exact (IH (PyStr.iscased c)).
Qed.

End Stripped.

Lemma length_do_title s : forall b, String.length (PyStr.do_title b s) = String.length s.
Proof.
  induction s as [|c s IH]; intros b; [reflexivity|].
  rewrite do_title_cons. cbn [String.length]. rewrite IH. reflexivity.
Qed.

(** In the reading on ASCII text the normalized answer is never longer than
    the answer, and unless it is empty it neither starts nor ends with a
    space or a period. *)
Lemma extract_answer_stripped_text s :
  (String.length (extract_answer s) <= String.length s)%nat
  /\ (extract_answer s = ""
      \/ (starts_kept (PyStr.char_in ". ") (extract_answer s) = true
          /\ ends_kept (PyStr.char_in ". ") (extract_answer s) = true)).
Proof.
  rewrite extract_answer_unfold. unfold PyStr.title, PyStr.strip. split.
  - rewrite length_do_title. unfold PyStr.strip_by, PyStr.replace.
    pose proof (length_replace_from end_of_utterance s 0).
    pose proof (length_lstrip_by (PyStr.char_in ". ")
                  (PyStr.replace_from 0 end_of_utterance "" s)).
    pose proof (length_rstrip_by (PyStr.char_in ". ")
                  (PyStr.lstrip_by (PyStr.char_in ". ")
                     (PyStr.replace_from 0 end_of_utterance "" s))).
    lia.
  - destruct (strip_by_ends (PyStr.char_in ". ") (PyStr.replace end_of_utterance "" s))
      as [-> | [Hstart Hend]]; [left; reflexivity|].
    right.
    rewrite (starts_kept_do_title _ period_space_titled),
            (ends_kept_do_title _ period_space_titled).
    split; assumption.
Qed.

Lemma all_stripped_no_lt s :
  all_chars (PyStr.char_in ". ") s = true -> PyStr.char_in s "<" = false.
Proof.
  induction s as [|c s IH]; [reflexivity|].
  cbn [all_chars PyStr.char_in]. intros H. apply andb_true_iff in H as [Hc Hs].
  rewrite (IH Hs), orb_false_r.
  destruct (Ascii.eqb_spec "<" c) as [<-|]; [discriminate Hc | reflexivity].
Qed.

Lemma lstrip_by_all p s : all_chars p s = true -> PyStr.lstrip_by p s = "".
Proof.
  induction s as [|c s IH]; [reflexivity|].
  cbn [all_chars PyStr.lstrip_by]. intros H. apply andb_true_iff in H as [-> Hs].
  exact (IH Hs).
Qed.

(** X4. An answer made of spaces and periods only is normalized to the
    empty text, which is a key of no catalog: every category then gets its
    fallback list. *)
Theorem extract_answer_blank s :
  all_chars (PyStr.char_in ". ") s = true ->
  extract_answer s = ""
  /\ forall c, dict_get (catalog c) (Some (extract_answer s)) [default_ad c]
               = [default_ad c].
Proof.
  intros Hall.
  assert (Hempty : extract_answer s = "").
  { rewrite extract_answer_unfold, (replace_without_lt "" s (all_stripped_no_lt s Hall)).
    unfold PyStr.strip, PyStr.strip_by. rewrite (lstrip_by_all _ s Hall). reflexivity. }
  split; [exact Hempty|]. rewrite Hempty. intros []; reflexivity.
Qed.

Lemma extract_answer_blank_witness :
  all_chars (PyStr.char_in ". ") " .. " = true
  /\ extract_answer " .. " = ""
  /\ dict_get ads_age (Some (extract_answer " .. ")) [default_age_ad] = [default_age_ad].
Proof.
  split; [reflexivity|].
  destruct (extract_answer_blank " .. " eq_refl) as [Hempty Hfallback].
  split; [exact Hempty | exact (Hfallback Age)].
Defined.

(** ** Ratings and cards *)

Lemma quot_rem_bounds n d :
  (0 < d)%Z ->
  exists r, (n = d * (n ÷ d) + r)%Z
            /\ ((0 <= n /\ 0 <= r < d) \/ (n < 0 /\ - d < r <= 0))%Z.
Proof.
  intros Hd. exists (Z.rem n d). split; [apply Z.quot_rem'|].
  destruct (Z_le_gt_dec 0 n) as [Hn|Hn].
  - left. split; [exact Hn|]. apply Z.rem_bound_pos; lia.
  - right. split; [lia|].
    pose proof (Z.rem_bound_pos (- n) d ltac:(lia) Hd) as Hb.
    rewrite Z.rem_opp_l in Hb by lia. lia.
Qed.

Lemma half_le_fractional n d :
  (0.5 <= fractional_part (n # d))%Q
  <-> (Z.pos d <= 2 * (n - (n ÷ Z.pos d) * Z.pos d))%Z.
Proof.
  unfold fractional_part, py_int, Qle, Qminus, Qplus, Qopp, inject_Z. cbn.
  rewrite Pos.mul_1_r. lia.
Qed.

Lemma lt_half n d : (n # d < 0.5)%Q <-> (2 * n < Z.pos d)%Z.
Proof. unfold Qlt. cbn. lia. Qed.

Lemma format_stars_empty_iff rating : format_stars rating = "" <-> (rating < 0.5)%Q.
Proof.
  rewrite format_stars_shape.
  pose proof (Qle_bool_iff 0.5 (fractional_part rating)) as Hle.
  destruct rating as [n d]. rewrite half_le_fractional in Hle. rewrite lt_half.
  unfold py_int in *. cbn [Qnum Qden] in *.
  destruct (quot_rem_bounds n (Z.pos d) ltac:(lia)) as (r & Hr & Hcase).
  set (q := (n ÷ Z.pos d)%Z) in *.
  assert (Hfrac : (n - q * Z.pos d = r)%Z) by lia.
  rewrite Hfrac in Hle.
  assert (Hzero : (0 <= n -> q <= 0 -> q = 0)%Z) by nia.
  assert (Hpos : (1 <= q -> Z.pos d <= n)%Z) by nia.
  destruct (Z.to_nat q) as [|k] eqn:Hq.
  - assert (Hq' : (q <= 0)%Z) by lia.
    cbn [PyStr.repeat_nat]. change ("" +:+ ?x) with x.
    destruct (Qle_bool 0.5 (fractional_part (n # d))).
    + split; [discriminate|]. intros Hlt. exfalso.
      assert (Z.pos d <= 2 * r)%Z by (apply Hle; reflexivity). nia.
    + split; [|reflexivity]. intros _.
      assert (~ (Z.pos d <= 2 * r)%Z) by (intros H; apply Hle in H; discriminate).
      nia.
  - assert (Hq' : (1 <= q)%Z) by lia.
    cbn [PyStr.repeat_nat]. unfold filled_star. rewrite !append_cons.
    split; [discriminate|]. intros Hlt. exfalso. lia.
Qed.

(** X5. For a rating whose integer part fits an index-sized integer,
    [-2^63 <= rating < 2^63], the stars are the empty text exactly when the
    rating is below 0.5; every negative rating of that range is among
    them. *)
Theorem format_stars_empty rating :
  (- inject_Z (2 ^ 63) <= rating)%Q -> (rating < inject_Z (2 ^ 63))%Q ->
  (format_stars rating = "" <-> (rating < 0.5)%Q).
Proof. intros _ _. apply format_stars_empty_iff. Qed.

Lemma format_stars_empty_witness :
  (- inject_Z (2 ^ 63) <= - 1.5)%Q
  /\ (- 1.5 < inject_Z (2 ^ 63))%Q
  /\ format_stars (- 1.5) = "".
Proof.
  assert (Hlow : (- inject_Z (2 ^ 63) <= - 1.5)%Q) by (unfold Qle; cbn; lia).
  assert (Hhigh : (- 1.5 < inject_Z (2 ^ 63))%Q) by (unfold Qlt; cbn; lia).
  split; [exact Hlow|]. split; [exact Hhigh|].
  apply (format_stars_empty (- 1.5) Hlow Hhigh). unfold Qlt. cbn. lia.
Defined.

Ltac rating_in_range := split; unfold Qle; cbn; lia.

Lemma catalog_ads_stars c :
  map_Forall
    (fun _ (ads : list Ad) =>
       Forall (fun ad => (0 <= rating ad /\ rating ad <= 5)%Q
                         /\ format_stars (rating ad) = "★★★★½") ads)
    (catalog c).
Proof.
  destruct c; unfold catalog, ads_age, ads_gender, ads_mood, ads_style;
    cbn [list_to_map foldr fst snd];
    repeat (apply map_Forall_insert_2;
            [repeat (constructor; [split; [rating_in_range | reflexivity]|]);
             constructor|]);
    apply map_Forall_empty.
Qed.

Lemma selectable_ad_stars c key ad :
  ad ∈ dict_get (catalog c) key [default_ad c] ->
  (0 <= rating ad /\ rating ad <= 5)%Q
  /\ (format_stars (rating ad) = "★★★★½" \/ format_stars (rating ad) = "★★★★★").
Proof.
  intros Hin.
  assert (Hdefault : ad ∈ [default_ad c] ->
            (0 <= rating ad /\ rating ad <= 5)%Q
            /\ (format_stars (rating ad) = "★★★★½"
                \/ format_stars (rating ad) = "★★★★★")).
  { intros H. apply list_elem_of_singleton in H. subst ad.
    destruct c; (split; [rating_in_range | right; reflexivity]). }
  destruct key as [label|]; cbn [dict_get] in Hin; [|exact (Hdefault Hin)].
  destruct (catalog c !! label) as [ads|] eqn:E; cbn [default] in Hin;
    [|exact (Hdefault Hin)].
  pose proof (catalog_ads_stars c label ads E) as Hall.
  rewrite Forall_forall in Hall. destruct (Hall ad Hin) as [Hrange Hstars].
  split; [exact Hrange | left; exact Hstars].
Qed.

(** X6. Whatever the segmentation result and the random generator, every
    advertisement the selector returns has a rating between 0 and 5, and its
    stars are either four filled stars and a half star or five filled
    stars. *)
Theorem select_ads_stars env (segmentation : gmap string string) w :
  exists selected_ads w',
    select_ads env segmentation w = (Returns selected_ads, w')
    /\ forall c, exists ad,
         selected_ads !! category_key c = Some ad
         /\ (0 <= rating ad /\ rating ad <= 5)%Q
         /\ (format_stars (rating ad) = "★★★★½"
             \/ format_stars (rating ad) = "★★★★★").
Proof.
  destruct (select_ads_runs env segmentation w) as (selected_ads & w' & Hrun & Hsel).
  exists selected_ads, w'. split; [exact Hrun|].
  intros c. destruct (Hsel c) as (ad & Had & Hin).
  exists ad. split; [exact Had|]. exact (selectable_ad_stars c _ ad Hin).
Qed.

Ltac split_before_piece x l k :=
  lazymatch l with
  | x :: _ => k (@nil string)
  | ?y :: ?l' => split_before_piece x l' ltac:(fun before => k (y :: before))
  end.

(** Proves that a text made of pieces contains one of its pieces. *)
Ltac shows_piece x :=
  lazymatch goal with
  | |- PyStr.contains (String.concat "" ?l) _ =>
      split_before_piece x l ltac:(fun before =>
        change l with (before ++ drop (List.length before) l)%list)
  end;
  rewrite concat_app; cbn [drop List.length];
  apply contains_append_l; rewrite concat_cons; apply contains_prefix.


(** ** The model wrapper: what it passes on *)

Lemma ask_mlx_vlm_success_steps env image question prompt output w :
  apply_chat_template env question = Returns prompt ->
  generate env prompt image = Returns output ->
  ask_mlx_vlm env image question w
  = (Returns output,
     after w [ Log INFO ("Processing question: " +:+ question);
               ApplyChatTemplate question;
               Generate prompt;
               Log INFO ("Generated response: " +:+ output) ]).
Proof.
  intros Hprompt Houtput. unfold ask_mlx_vlm. eff_step.
  rewrite Hprompt. cbv beta iota. eff_step. rewrite Houtput. cbv beta iota.
  eff_step. rewrite !after_after. reflexivity.
Qed.

Lemma ask_mlx_vlm_template_failure_steps env image question e w :
  apply_chat_template env question = Raises e ->
  ask_mlx_vlm env image question w
  = (Returns ("Error processing question: " +:+ exn_str e),
     after w [ Log INFO ("Processing question: " +:+ question);
               ApplyChatTemplate question;
               Log ERROR ("Error in ask_mlx_vlm: " +:+ exn_str e) ]).
Proof.
  intros Hfail. unfold ask_mlx_vlm. eff_step.
  rewrite Hfail. cbv beta iota. eff_step. rewrite !after_after. reflexivity.
Qed.

(** X8. When the prompt is formatted and [generate] returns, [ask_mlx_vlm]
    returns the output of the model as it is; the model is called once, with
    the formatted prompt, and the output is logged. *)
Theorem ask_mlx_vlm_success env image question prompt output w :
  apply_chat_template env question = Returns prompt ->
  generate env prompt image = Returns output ->
  ask_mlx_vlm env image question w
  = (Returns output,
     after w [ Log INFO ("Processing question: " +:+ question);
               ApplyChatTemplate question;
               Generate prompt;
               Log INFO ("Generated response: " +:+ output) ]).
Proof. apply ask_mlx_vlm_success_steps. Qed.

Lemma ask_mlx_vlm_success_witness :
  apply_chat_template (env_answering "happy.") "How?" = Returns "How?"
  /\ generate (env_answering "happy.") "How?" tt = Returns "happy."
  /\ fst (ask_mlx_vlm (env_answering "happy.") tt "How?" initial_world) = Returns "happy.".
Proof.
  split; [reflexivity|]. split; [reflexivity|].
  rewrite (ask_mlx_vlm_success (env_answering "happy.") tt "How?" "How?" "happy."
             initial_world eq_refl eq_refl).
  reflexivity.
Defined.

(** X9. When the formatting of the prompt raises [e], [ask_mlx_vlm] does
    not call the model at all: it logs the error and returns the text
    ["Error processing question: " + str(e)]. *)
Theorem ask_mlx_vlm_template_failure env image question e w :
  apply_chat_template env question = Raises e ->
  ask_mlx_vlm env image question w
  = (Returns ("Error processing question: " +:+ exn_str e),
     after w [ Log INFO ("Processing question: " +:+ question);
               ApplyChatTemplate question;
               Log ERROR ("Error in ask_mlx_vlm: " +:+ exn_str e) ]).
Proof. apply ask_mlx_vlm_template_failure_steps. Qed.

Lemma ask_mlx_vlm_template_failure_witness :
  apply_chat_template env_template_fails "How?" = Raises (Exception "no template")
  /\ ask_mlx_vlm env_template_fails tt "How?" initial_world
     = (Returns "Error processing question: no template",
        after initial_world
          [ Log INFO "Processing question: How?";
            ApplyChatTemplate "How?";
            Log ERROR "Error in ask_mlx_vlm: no template" ]).
Proof.
  split; [reflexivity|].
  apply (ask_mlx_vlm_template_failure env_template_fails tt "How?"
           (Exception "no template") initial_world).
  reflexivity.
Defined.

(** ** The segmentation loop: what it asks *)

Lemma prompts_of_one env question :
  prompts_of env [question]
  = match apply_chat_template env question with
    | Returns formatted_prompt => [formatted_prompt]
    | Raises _ => []
    end.
Proof.
  unfold prompts_of. cbn. destruct (apply_chat_template env question); reflexivity.
Qed.

Lemma prompts_of_cons env question qs :
  prompts_of env (question :: qs) = (prompts_of env [question] ++ prompts_of env qs)%list.
Proof. exact (omap_app _ [question] qs). Qed.

(** The calls [ask_mlx_vlm] makes to a collaborator other than the logger. *)
Lemma ask_mlx_vlm_calls env image question w :
  exists calls,
    ask_mlx_vlm env image question w
    = (Returns (model_answer env image question), after w calls)
    /\ asked calls = [question]
    /\ generated calls = prompts_of env [question]
    /\ drawn calls = []
    /\ decoded calls = [].
Proof.
  unfold model_answer. rewrite prompts_of_one.
  destruct (apply_chat_template env question) as [prompt|e] eqn:Hprompt.
  - destruct (generate env prompt image) as [output|e] eqn:Houtput.
    + rewrite (ask_mlx_vlm_success_steps env image question prompt output w Hprompt Houtput).
      eexists. split; [reflexivity|]. repeat split; reflexivity.
    + rewrite (ask_mlx_vlm_generate_failure env image question prompt e w Hprompt Houtput).
      eexists. split; [reflexivity|]. repeat split; reflexivity.
  - rewrite (ask_mlx_vlm_template_failure_steps env image question e w Hprompt).
    eexists. split; [reflexivity|]. repeat split; reflexivity.
Qed.

Lemma asked_app l1 l2 : asked (l1 ++ l2) = (asked l1 ++ asked l2)%list.
Proof. apply omap_app. Qed.

Lemma generated_app l1 l2 : generated (l1 ++ l2) = (generated l1 ++ generated l2)%list.
Proof. apply omap_app. Qed.

Lemma drawn_app l1 l2 : drawn (l1 ++ l2) = (drawn l1 ++ drawn l2)%list.
Proof. apply omap_app. Qed.

Lemma decoded_app l1 l2 : decoded (l1 ++ l2) = (decoded l1 ++ decoded l2)%list.
Proof. apply omap_app. Qed.

Lemma segment_one_calls env image (segmentation : gmap string string) key question w :
  exists calls,
    segment_one env image segmentation (key, question) w
    = (Returns (<[ key := extract_answer (model_answer env image question) ]> segmentation),
       after w calls)
    /\ asked calls = [question]
    /\ generated calls = prompts_of env [question]
    /\ drawn calls = []
    /\ decoded calls = [].
Proof.
  unfold segment_one. eff_step.
  destruct (ask_mlx_vlm_calls env image question
              (after w [Log INFO ("Segmenting for " +:+ key +:+ " using question: " +:+ question)]))
    as (calls & -> & Hasked & Hgenerated & Hdrawn & Hdecoded).
  cbv beta iota zeta. unfold Eff.getitem. rewrite lookup_insert_eq.
  eff_step. rewrite !after_after.
  eexists. split; [reflexivity|].
  rewrite !asked_app, !generated_app, !drawn_app, !decoded_app.
  rewrite Hasked, Hgenerated, Hdrawn, Hdecoded, !app_nil_r. repeat split; reflexivity.
Qed.

Lemma for_each_segment_one_calls env image items :
  forall (segmentation : gmap string string) w,
  exists calls,
    Eff.for_each items (segment_one env image) segmentation w
    = (Returns (labels_of env image segmentation items), after w calls)
    /\ asked calls = items.*2
    /\ generated calls = prompts_of env items.*2
    /\ drawn calls = []
    /\ decoded calls = [].
Proof.
  induction items as [|[key question] items IH]; intros segmentation w.
  - exists []. split; [|repeat split; reflexivity].
    unfold after. rewrite app_nil_r. destruct w; reflexivity.
  - cbn [Eff.for_each]. unfold Eff.bind.
    destruct (segment_one_calls env image segmentation key question w)
      as (calls & -> & Hasked & Hgenerated & Hdrawn & Hdecoded).
    destruct (IH (<[ key := extract_answer (model_answer env image question) ]> segmentation)
                 (after w calls))
      as (calls' & -> & Hasked' & Hgenerated' & Hdrawn' & Hdecoded').
    rewrite after_after. exists (calls ++ calls')%list. split; [reflexivity|].
    rewrite asked_app, generated_app, drawn_app, decoded_app.
    rewrite Hasked, Hasked', Hgenerated, Hgenerated', Hdrawn, Hdrawn', Hdecoded, Hdecoded'.
    cbn [fmap list_fmap snd]. rewrite (prompts_of_cons env question (items.*2)).
    repeat split; reflexivity.
Qed.

(** X10. The segmentation never fails and always gives the four keys; the
    label of a category is the normalized form of what [ask_mlx_vlm] gave
    for the question of that category alone.  Each of the four questions is
    formatted once, in the order age, gender, mood, style; the model is
    called once for each prompt that could be formatted and never a second
    time; nothing is drawn at random and no image is read. *)
Theorem segment_asks_each_question_once env image w :
  exists segmentation calls,
    segment env image w = (Returns segmentation, after w calls)
    /\ dom segmentation = {[ "age"; "gender"; "mood"; "style" ]}
    /\ (forall c,
          segmentation !! category_key c
          = Some (extract_answer (model_answer env image (question_of (category_key c)))))
    /\ asked calls = questions.*2
    /\ generated calls = prompts_of env questions.*2
    /\ drawn calls = []
    /\ decoded calls = [].
Proof.
  destruct (for_each_segment_one_calls env image questions ∅ w)
    as (calls & Hrun & Hcalls).
  exists (labels_of env image ∅ questions), calls.
  split; [exact Hrun|]. split; [apply segment_keys|].
  split; [apply segment_label | exact Hcalls].
Qed.

(** ** The ad selector: what it draws *)

Lemma catalog_list_sizes c key :
  length (dict_get (catalog c) key [default_ad c]) = 1%nat
  \/ length (dict_get (catalog c) key [default_ad c]) = 3%nat.
Proof.
  destruct key as [label|]; cbn [dict_get]; [|left; reflexivity].
  destruct (catalog c !! label) as [ads|] eqn:E; cbn [default]; [|left; reflexivity].
  right. revert label ads E.
  change (map_Forall (fun _ (ads : list Ad) => length ads = 3%nat) (catalog c)).
  destruct c; unfold catalog, ads_age, ads_gender, ads_mood, ads_style;
    cbn [list_to_map foldr fst snd];
    repeat (apply map_Forall_insert_2; [reflexivity|]);
    apply map_Forall_empty.
Qed.

Lemma select_ads_world env (segmentation : gmap string string) w :
  let sizes :=
    [ length (dict_get ads_age (segmentation !! "age") [default_age_ad]);
      length (dict_get ads_gender (segmentation !! "gender") [default_gender_ad]);
      length (dict_get ads_mood (segmentation !! "mood") [default_mood_ad]);
      length (dict_get ads_style (segmentation !! "style") [default_style_ad]) ] in
  exists selected_ads w',
    select_ads env segmentation w = (Returns selected_ads, w')
    /\ dom selected_ads = {[ "age"; "gender"; "mood"; "style" ]}
    /\ journal w' = (journal w ++ (RandomChoice <$> sizes))%list
    /\ draws w' = (draws w + 4)%nat
    /\ Forall (fun n => n = 1%nat \/ n = 3%nat) sizes.
Proof.
  intros sizes. unfold select_ads, Eff.bind.
  draw_for Age a Ha. draw_for Gender g Hg. draw_for Mood m Hm. draw_for Style s Hs.
  eexists _, _. split; [reflexivity|].
  split; [|split; [|split]].
  - cbn [list_to_map foldr fst snd]. rewrite !dom_insert_L, dom_empty_L. set_solver.
  - cbn [journal]. rewrite <- !app_assoc. reflexivity.
  - cbn [draws]. lia.
  - subst sizes.
    constructor; [apply (catalog_list_sizes Age)|].
    constructor; [apply (catalog_list_sizes Gender)|].
    constructor; [apply (catalog_list_sizes Mood)|].
    constructor; [apply (catalog_list_sizes Style)|].
    constructor.
Qed.

(** X11. The selector draws exactly four times, once for each category in
    the order age, gender, mood, style, each time from a list of one or of
    three advertisements, and does nothing else; its result has exactly the
    four keys. *)
Theorem select_ads_draws_four env (segmentation : gmap string string) w :
  let sizes :=
    [ length (dict_get ads_age (segmentation !! "age") [default_age_ad]);
      length (dict_get ads_gender (segmentation !! "gender") [default_gender_ad]);
      length (dict_get ads_mood (segmentation !! "mood") [default_mood_ad]);
      length (dict_get ads_style (segmentation !! "style") [default_style_ad]) ] in
  exists selected_ads w',
    select_ads env segmentation w = (Returns selected_ads, w')
    /\ dom selected_ads = {[ "age"; "gender"; "mood"; "style" ]}
    /\ journal w' = (journal w ++ (RandomChoice <$> sizes))%list
    /\ draws w' = (draws w + 4)%nat
    /\ Forall (fun n => n = 1%nat \/ n = 3%nat) sizes.
Proof. exact (select_ads_world env segmentation w). Qed.

(** ** The request handler as a whole *)

(** X12. The handler never raises.  It answers 400 exactly when the form
    has no ["image"] field, 500 exactly when the field is there and the
    image cannot be read, and 200 with an ["html"] body in every other case,
    whatever the model and the random generator do. *)
Theorem process_image_status env (request_files : gmap string string) w :
  exists response w',
    process_image env request_files w = (Returns response, w')
    /\ match request_files !! "image" with
       | None => status response = 400%nat
       | Some image_file =>
           match Image_open env image_file with
           | Raises _ => status response = 500%nat
           | Returns _ =>
               status response = 200%nat /\ is_Some (body response !! "html")
           end
       end.
Proof.
  destruct (request_files !! "image") as [image_file|] eqn:Hfile.
  - destruct (Image_open env image_file) as [image|e] eqn:Hopen.
    + destruct (process_image_success env request_files image_file image w Hfile Hopen)
        as (html & w' & ->).
      eexists _, _. split; [reflexivity|]. split; [reflexivity|].
      cbn [body]. rewrite lookup_singleton_eq. eauto.
    + unfold process_image. rewrite Hfile. unfold Eff.bind at 1.
      rewrite (read_image_failure env image_file e w Hopen).
      eexists _, _. split; reflexivity.
  - unfold process_image. rewrite Hfile. eexists _, _. split; reflexivity.
Qed.

Lemma render_html env (segmentation : gmap string string) (selected_ads : gmap string Ad)
    a g m s w :
  selected_ads !! "age" = Some a ->
  selected_ads !! "gender" = Some g ->
  selected_ads !! "mood" = Some m ->
  selected_ads !! "style" = Some s ->
  render env segmentation selected_ads w
  = (Returns (html_output segmentation (format_ad_html env a) (format_ad_html env g)
                (format_ad_html env m) (format_ad_html env s)), w).
Proof.
  intros Ha Hg Hm Hs. unfold render, Eff.bind, Eff.getitem.
  rewrite Ha, Hg, Hm, Hs. reflexivity.
Qed.

(** The answer to a readable image: the fragment of the labels of the
    image and of four advertisements drawn for these labels. *)
Lemma process_image_renders env (request_files : gmap string string) image_file image w :
  request_files !! "image" = Some image_file ->
  Image_open env image_file = Returns image ->
  exists a g m s w',
    process_image env request_files w
    = (Returns {| body := {[ "html" :=
                     html_output (labels_of env image ∅ questions)
                       (format_ad_html env a) (format_ad_html env g)
                       (format_ad_html env m) (format_ad_html env s) ]};
                  status := 200 |}, w')
    /\ forall c,
         match c with Age => a | Gender => g | Mood => m | Style => s end
         ∈ dict_get (catalog c) (labels_of env image ∅ questions !! category_key c)
             [default_ad c].
Proof.
  intros Hfile Hopen. unfold process_image. rewrite Hfile.
  unfold Eff.bind at 1. rewrite (read_image_success _ _ _ _ Hopen).
  unfold Eff.bind at 1.
  destruct (segment_runs env image
              (after w [ImageOpen image_file;
                        Log INFO ("Received image of size: " +:+ image_size env image)]))
    as [calls ->].
  unfold Eff.bind at 1.
  destruct (select_ads_runs env (labels_of env image ∅ questions) (after
              (after w [ImageOpen image_file;
                        Log INFO ("Received image of size: " +:+ image_size env image)])
              calls))
    as (selected_ads & w' & -> & Hsel).
  destruct (Hsel Age) as (a & Ha & Hina), (Hsel Gender) as (g & Hg & Hing),
           (Hsel Mood) as (m & Hm & Hinm), (Hsel Style) as (s & Hs & Hins).
  unfold Eff.bind at 1.
  rewrite (render_html env _ selected_ads a g m s w' Ha Hg Hm Hs).
  exists a, g, m, s, w'. split; [reflexivity|].
  intros []; assumption.
Qed.

Lemma label_shown pre name label rest :
  PyStr.contains (String.concat "" ((pre +:+ name) :: label :: rest)) (name +:+ label).
Proof.
  rewrite !concat_cons. exists pre, (String.concat "" rest).
  rewrite !append_assoc. reflexivity.
Qed.

(** Proves that the fragment shows a label after its name. *)
Ltac shows_label pre name :=
  lazymatch goal with
  | |- PyStr.contains (String.concat "" ?l) _ =>
      let piece := eval cbv in (pre +:+ name) in
      split_before_piece piece l ltac:(fun before =>
        change l with (before ++ drop (List.length before) l)%list)
  end;
  rewrite concat_app; cbn [drop List.length];
  apply contains_append_l; apply (label_shown pre name).

Lemma html_output_shows_label (segmentation : gmap string string) ca cg cm cs c :
  PyStr.contains (html_output segmentation ca cg cm cs)
    (category_name c +:+ ": " +:+ dict_get segmentation (Some (category_key c)) "N/A").
Proof.
  unfold html_output.
  destruct c; cbn [category_name category_key].
  - shows_label "                    <span>" "Age: ".
  - shows_label "                    <span>" "Gender: ".
  - shows_label "                    <span>" "Mood: ".
  - shows_label "                    <span>" "Style: ".
Qed.

Lemma html_output_shows_cards (segmentation : gmap string string) ca cg cm cs :
  PyStr.contains (html_output segmentation ca cg cm cs) ca
  /\ PyStr.contains (html_output segmentation ca cg cm cs) cg
  /\ PyStr.contains (html_output segmentation ca cg cm cs) cm
  /\ PyStr.contains (html_output segmentation ca cg cm cs) cs.
Proof.
  unfold html_output. repeat split.
  - shows_piece ca.
  - shows_piece cg.
  - shows_piece cm.
  - shows_piece cs.
Qed.

(** X13. For a readable image the fragment of the answer shows, for each
    category, the name of the category followed by the normalized answer of
    the model, put in as it is, and the card of an advertisement drawn from
    the list the catalog of the category gives for that label. *)
Theorem process_image_html env (request_files : gmap string string) image_file image w :
  request_files !! "image" = Some image_file ->
  Image_open env image_file = Returns image ->
  exists html w',
    process_image env request_files w
    = (Returns {| body := {[ "html" := html ]}; status := 200 |}, w')
    /\ forall c,
         let label := extract_answer (model_answer env image (question_of (category_key c))) in
         PyStr.contains html (category_name c +:+ ": " +:+ label)
         /\ exists ad,
              ad ∈ dict_get (catalog c) (Some label) [default_ad c]
              /\ PyStr.contains html (format_ad_html env ad).
Proof.
  intros Hfile Hopen.
  destruct (process_image_renders env request_files image_file image w Hfile Hopen)
    as (a & g & m & s & w' & Hrun & Hin).
  eexists _, w'. split; [exact Hrun|].
  intros c label. split.
  - pose proof (html_output_shows_label (labels_of env image ∅ questions)
                  (format_ad_html env a) (format_ad_html env g)
                  (format_ad_html env m) (format_ad_html env s) c) as Hshown.
    cbn [dict_get] in Hshown. rewrite (segment_label env image c) in Hshown.
    exact Hshown.
  - specialize (Hin c). rewrite (segment_label env image c) in Hin.
    destruct (html_output_shows_cards (labels_of env image ∅ questions)
                (format_ad_html env a) (format_ad_html env g)
                (format_ad_html env m) (format_ad_html env s))
      as (Ha & Hg & Hm & Hs).
    destruct c; eexists; (split; [exact Hin|]); assumption.
Qed.

Lemma process_image_html_witness :
  ({[ "image" := "bytes" ]} : gmap string string) !! "image" = Some "bytes"
  /\ Image_open (env_answering "happy.") "bytes" = Returns tt
  /\ exists html w',
       process_image (env_answering "happy.") {[ "image" := "bytes" ]} initial_world
       = (Returns {| body := {[ "html" := html ]}; status := 200 |}, w')
       /\ PyStr.contains html ("Mood" +:+ ": " +:+ "Happy").
Proof.
  split; [reflexivity|]. split; [reflexivity|].
  destruct (process_image_html (env_answering "happy.") {[ "image" := "bytes" ]}
              "bytes" tt initial_world (lookup_singleton_eq _ _) eq_refl)
    as (html & w' & Hrun & Hshown).
  exists html, w'. split; [exact Hrun|].
  destruct (Hshown Mood) as [Hlabel _]. exact Hlabel.
Defined.

Lemma catalog_key_in c k ads : catalog c !! k = Some ads -> k ∈ catalog_keys.
Proof.
  intros Hk. assert (Hdom : k ∈ dom (catalog c)) by (apply elem_of_dom; eauto).
  unfold catalog_keys. destruct c; cbn [catalog] in Hdom.
  - do 3 apply elem_of_union_l. exact Hdom.
  - do 2 apply elem_of_union_l. apply elem_of_union_r. exact Hdom.
  - apply elem_of_union_l, elem_of_union_r. exact Hdom.
  - apply elem_of_union_r. exact Hdom.
Qed.

(** X14. When the model answers the question of a category with a key of
    the catalog of that category, in any letter case, the segmentation
    records that key and the selector draws the advertisement of the category
    from the list the catalog has for it, not from the fallback. *)
Theorem answer_in_any_case_selects_from_catalog env image (c : category)
    prompt output k ads w :
  apply_chat_template env (question_of (category_key c)) = Returns prompt ->
  generate env prompt image = Returns output ->
  str_lower output = str_lower k ->
  catalog c !! k = Some ads ->
  exists segmentation w1 selected_ads w2 ad,
    segment env image w = (Returns segmentation, w1)
    /\ segmentation !! category_key c = Some k
    /\ select_ads env segmentation w1 = (Returns selected_ads, w2)
    /\ selected_ads !! category_key c = Some ad
    /\ ad ∈ ads.
Proof.
  intros Hprompt Houtput Hcase Hads.
  destruct (segment_runs env image w) as [calls Hrun].
  assert (Hlabel : labels_of env image ∅ questions !! category_key c = Some k).
  { rewrite segment_label. unfold model_answer. rewrite Hprompt, Houtput.
    rewrite (extract_answer_key_in_any_case output k (catalog_key_in c k ads Hads) Hcase).
    reflexivity. }
  destruct (select_ads_runs env (labels_of env image ∅ questions) (after w calls))
    as (selected_ads & w2 & Hselect & Hsel).
  destruct (Hsel c) as (ad & Had & Hin).
  rewrite Hlabel in Hin. cbn [dict_get] in Hin. rewrite Hads in Hin. cbn [default] in Hin.
  exists (labels_of env image ∅ questions), (after w calls), selected_ads, w2, ad.
  repeat split; assumption.
Qed.

Lemma answer_in_any_case_selects_from_catalog_witness :
  exists segmentation w1 selected_ads w2 ad,
    segment (env_answering "SPORTY") tt initial_world = (Returns segmentation, w1)
    /\ segmentation !! "style" = Some "Sporty"
    /\ select_ads (env_answering "SPORTY") segmentation w1 = (Returns selected_ads, w2)
    /\ selected_ads !! "style" = Some ad
    /\ ad ∈ [ Ad_init "Pro Athletic Wear"
                "High-performance gear for serious athletes" "$199.99" 4.8;
              Ad_init "Premium Running Shoes"
                "Advanced cushioning and support for every run" "$179.99" 4.7;
              Ad_init "Sports Tech Bundle"
                "Track and improve your performance with smart devices" "$299.99" 4.6 ].
Proof.
  exact (answer_in_any_case_selects_from_catalog (env_answering "SPORTY") tt Style
           (question_of "style") "SPORTY" "Sporty" _ initial_world
           eq_refl eq_refl eq_refl eq_refl).
Defined.

(** X15. For a readable image the handler reads the image once, then runs
    the segmentation, which formats each of the four questions once and
    calls the model once for each prompt it could format, and only then
    draws, exactly four times; there is no second attempt at anything. *)
Theorem process_image_calls env (request_files : gmap string string) image_file image w :
  request_files !! "image" = Some image_file ->
  Image_open env image_file = Returns image ->
  exists response w' model_calls sizes,
    process_image env request_files w = (Returns response, w')
    /\ journal w'
       = (journal w
          ++ [ImageOpen image_file;
              Log INFO ("Received image of size: " +:+ image_size env image)]
          ++ model_calls
          ++ (RandomChoice <$> sizes))%list
    /\ asked model_calls = questions.*2
    /\ generated model_calls = prompts_of env questions.*2
    /\ drawn model_calls = []
    /\ decoded model_calls = []
    /\ length sizes = 4%nat
    /\ draws w' = (draws w + 4)%nat.
Proof.
  intros Hfile Hopen. unfold process_image. rewrite Hfile.
  unfold Eff.bind at 1. rewrite (read_image_success _ _ _ _ Hopen).
  unfold Eff.bind at 1. unfold segment.
  destruct (for_each_segment_one_calls env image questions ∅
              (after w [ImageOpen image_file;
                        Log INFO ("Received image of size: " +:+ image_size env image)]))
    as (calls & -> & Hcalls).
  unfold Eff.bind at 1.
  destruct (select_ads_world env (labels_of env image ∅ questions) (after
              (after w [ImageOpen image_file;
                        Log INFO ("Received image of size: " +:+ image_size env image)])
              calls))
    as (selected_ads & w' & -> & Hdom & Hjournal & Hdraws & _).
  unfold Eff.bind at 1.
  destruct (render_runs env (labels_of env image ∅ questions) selected_ads w') as [html ->].
  { intros c. apply elem_of_dom. rewrite Hdom.
    destruct c; cbn [category_key];
      repeat (first [apply elem_of_union_r, elem_of_singleton; reflexivity
                    | apply elem_of_union_l]);
      apply elem_of_singleton; reflexivity. }
  eexists _, w', calls, _. split; [reflexivity|].
  split.
  { rewrite Hjournal. cbn [journal after]. rewrite <- !app_assoc. reflexivity. }
  destruct Hcalls as (Hasked & Hgenerated & Hdrawn & Hdecoded).
  repeat split; assumption.
Qed.

Lemma process_image_calls_witness :
  exists response w' model_calls sizes,
    process_image (env_answering "happy.") {[ "image" := "bytes" ]} initial_world
    = (Returns response, w')
    /\ journal w'
       = (journal initial_world
          ++ [ImageOpen "bytes";
              Log INFO ("Received image of size: "
                        +:+ image_size (env_answering "happy.") tt)]
          ++ model_calls
          ++ (RandomChoice <$> sizes))%list
    /\ asked model_calls = questions.*2
    /\ generated model_calls = prompts_of (env_answering "happy.") questions.*2
    /\ drawn model_calls = []
    /\ decoded model_calls = []
    /\ length sizes = 4%nat
    /\ draws w' = (draws initial_world + 4)%nat.
Proof.
  exact (process_image_calls (env_answering "happy.") {[ "image" := "bytes" ]}
           "bytes" tt initial_world (lookup_singleton_eq _ _) eq_refl).
Defined.

Lemma error_text_no_key c message :
  catalog c !! extract_answer ("Error processing question: " +:+ message) = None.
Proof.
  destruct (extract_answer_error_text message) as [rest ->].
  destruct (catalog c !! ("Error Processing Question:" +:+ rest)) as [ads|] eqn:E;
    [|reflexivity].
  apply catalog_key_in in E. rewrite catalog_keys_eq, append_cons in E.
  repeat (apply elem_of_union in E as [E|E]);
    apply elem_of_singleton in E; discriminate E.
Qed.

(** X16. When [generate] raises on the question of a category, the label of
    that category is the normalized error text of [ask_mlx_vlm], which is a
    key of no catalog, and the selector gives the category its fallback
    advertisement. *)
Theorem generate_failure_selects_fallback env image (c : category) prompt e w :
  apply_chat_template env (question_of (category_key c)) = Returns prompt ->
  generate env prompt image = Raises e ->
  exists segmentation w1 selected_ads w2,
    segment env image w = (Returns segmentation, w1)
    /\ segmentation !! category_key c
       = Some (extract_answer ("Error processing question: " +:+ exn_str e))
    /\ select_ads env segmentation w1 = (Returns selected_ads, w2)
    /\ selected_ads !! category_key c = Some (default_ad c).
Proof.
  intros Hprompt Hfail.
  destruct (segment_runs env image w) as [calls Hrun].
  assert (Hlabel : labels_of env image ∅ questions !! category_key c
                   = Some (extract_answer ("Error processing question: " +:+ exn_str e))).
  { rewrite segment_label. unfold model_answer. rewrite Hprompt, Hfail. reflexivity. }
  destruct (select_ads_runs env (labels_of env image ∅ questions) (after w calls))
    as (selected_ads & w2 & Hselect & Hsel).
  destruct (Hsel c) as (ad & Had & Hin).
  rewrite Hlabel in Hin. cbn [dict_get] in Hin.
  rewrite error_text_no_key in Hin. cbn [default] in Hin.
  apply list_elem_of_singleton in Hin. subst ad.
  exists (labels_of env image ∅ questions), (after w calls), selected_ads, w2.
  repeat split; assumption.
Qed.

Lemma generate_failure_selects_fallback_witness :
  exists segmentation w1 selected_ads w2,
    segment env_mood_fails tt initial_world = (Returns segmentation, w1)
    /\ segmentation !! "mood"
       = Some (extract_answer ("Error processing question: " +:+ "model failure"))
    /\ select_ads env_mood_fails segmentation w1 = (Returns selected_ads, w2)
    /\ selected_ads !! "mood" = Some default_mood_ad.
Proof.
  exact (generate_failure_selects_fallback env_mood_fails tt Mood (question_of "mood")
           (Exception "model failure") initial_world eq_refl eq_refl).
Defined.

(** ** The normalizer on code points and on ASCII text *)

Lemma points_append s t : Uni.points (s +:+ t) = (Uni.points s ++ Uni.points t)%list.
Proof.
  induction s as [|c s IH]; [reflexivity|].
  rewrite append_cons. cbn [Uni.points]. rewrite IH. reflexivity.
Qed.

Lemma length_points s : length (Uni.points s) = String.length s.
Proof. induction s as [|c s IH]; [reflexivity|]. cbn. rewrite IH. reflexivity. Qed.

Lemma points_inj s t : Uni.points s = Uni.points t -> s = t.
Proof.
  revert t. induction s as [|c s IH]; intros [|d t] H; try discriminate; [reflexivity|].
  cbn [Uni.points] in H. injection H as Hc Hs.
  apply (f_equal ascii_of_N) in Hc. rewrite !ascii_N_embedding in Hc.
  rewrite Hc, (IH t Hs). reflexivity.
Qed.

Lemma eqb_points c d : (N_of_ascii c =? N_of_ascii d)%N = Ascii.eqb c d.
Proof.
  destruct (Ascii.eqb_spec c d) as [->|Hne]; [apply N.eqb_refl|].
  apply N.eqb_neq. intros H. apply Hne.
  apply (f_equal ascii_of_N) in H. rewrite !ascii_N_embedding in H. exact H.
Qed.

Lemma starts_points old : forall s,
  Uni.starts (Uni.points old) (Uni.points s) = String.prefix old s.
Proof.
  induction old as [|a old IH]; intros s.
  - destruct s; reflexivity.
  - destruct s as [|b s]; [reflexivity|].
    cbn [Uni.points Uni.starts String.prefix]. rewrite eqb_points, IH.
    destruct (ascii_dec a b) as [->|Hne].
    + rewrite Ascii.eqb_refl. reflexivity.
    + apply Ascii.eqb_neq in Hne. rewrite Hne. reflexivity.
Qed.

Lemma replace_from_points old new s : forall skip,
  Uni.replace_from skip (Uni.points old) (Uni.points new) (Uni.points s)
  = Uni.points (PyStr.replace_from skip old new s).
Proof.
  induction s as [|c s IH]; intros skip; [reflexivity|].
  cbn [Uni.points Uni.replace_from PyStr.replace_from].
  destruct skip as [|skip]; [|apply IH].
  change (N_of_ascii c :: Uni.points s) with (Uni.points (String c s)).
  rewrite starts_points, length_points.
  destruct (String.prefix old (String c s)).
  - rewrite points_append, IH. reflexivity.
  - cbn [Uni.points]. rewrite IH. reflexivity.
Qed.

Section StripPoints.

Variable p : ascii -> bool.
Variable q : N -> bool.
Hypothesis q_points : forall c, q (N_of_ascii c) = p c.

Lemma lstrip_by_points s :
  Uni.lstrip_by q (Uni.points s) = Uni.points (PyStr.lstrip_by p s).
Proof.
  induction s as [|c s IH]; [reflexivity|].
  cbn [Uni.points Uni.lstrip_by PyStr.lstrip_by]. rewrite q_points.
  destruct (p c); [exact IH | reflexivity].
Qed.

Lemma rstrip_by_points s :
  Uni.rstrip_by q (Uni.points s) = Uni.points (PyStr.rstrip_by p s).
Proof.
  induction s as [|c s IH]; [reflexivity|].
  rewrite rstrip_by_cons. cbn [Uni.points Uni.rstrip_by]. rewrite q_points, IH.
  destruct (PyStr.rstrip_by p s); destruct (p c); reflexivity.
Qed.

End StripPoints.

Lemma char_in_points chars c :
  existsb (N.eqb (N_of_ascii c)) (Uni.points chars) = PyStr.char_in chars c.
Proof.
  induction chars as [|d chars IH]; [reflexivity|].
  cbn [Uni.points existsb PyStr.char_in]. rewrite eqb_points, IH. reflexivity.
Qed.

Lemma strip_points chars s :
  Uni.strip (Uni.points chars) (Uni.points s) = Uni.points (PyStr.strip chars s).
Proof.
  unfold Uni.strip, PyStr.strip, PyStr.strip_by.
  rewrite (lstrip_by_points (PyStr.char_in chars) _ (char_in_points chars)).
  apply (rstrip_by_points (PyStr.char_in chars) _ (char_in_points chars)).
Qed.

Ltac each_ascii_char c H :=
  destruct c as [[] [] [] [] [] [] [] []];
  first [discriminate H | reflexivity].

Lemma iscased_points c :
  ascii_char c = true -> Uni.iscased (N_of_ascii c) = PyStr.iscased c.
Proof. intros H. each_ascii_char c H. Qed.

Lemma lower_full_points c :
  ascii_char c = true -> Uni.lower_full (N_of_ascii c) = [N_of_ascii (PyStr.lower c)].
Proof. intros H. each_ascii_char c H. Qed.

Lemma title_full_points c :
  ascii_char c = true -> Uni.title_full (N_of_ascii c) = [N_of_ascii (PyStr.upper c)].
Proof. intros H. each_ascii_char c H. Qed.

Lemma do_title_points s : forall b,
  is_ascii s = true -> Uni.do_title b (Uni.points s) = Uni.points (PyStr.do_title b s).
Proof.
  induction s as [|c s IH]; intros b Hs; [reflexivity|].
  cbn [is_ascii all_chars] in Hs. apply andb_true_iff in Hs as [Hc Hs].
  cbn [Uni.points Uni.do_title PyStr.do_title].
  rewrite (iscased_points c Hc), (IH _ Hs).
  destruct b; [rewrite (lower_full_points c Hc) | rewrite (title_full_points c Hc)];
    reflexivity.
Qed.

(** The steps of the normalizer make a text of ASCII characters of a text
    of ASCII characters. *)
Lemma all_chars_replace_from p old s : forall skip,
  all_chars p s = true -> all_chars p (PyStr.replace_from skip old "" s) = true.
Proof.
  induction s as [|c s IH]; intros skip Hs; [reflexivity|].
  cbn [all_chars] in Hs. apply andb_true_iff in Hs as [Hc Hs].
  cbn [PyStr.replace_from]. destruct skip as [|skip]; [|apply IH, Hs].
  destruct (String.prefix old (String c s)).
  - change ("" +:+ ?x) with x. apply IH, Hs.
  - cbn [all_chars]. rewrite Hc, (IH 0%nat Hs). reflexivity.
Qed.

Lemma all_chars_lstrip_by p q s :
  all_chars p s = true -> all_chars p (PyStr.lstrip_by q s) = true.
Proof.
  induction s as [|c s IH]; intros Hs; [reflexivity|].
  cbn [PyStr.lstrip_by]. destruct (q c); [|exact Hs].
  cbn [all_chars] in Hs. apply andb_true_iff in Hs as [_ Hs]. apply IH, Hs.
Qed.

Lemma all_chars_rstrip_by p q s :
  all_chars p s = true -> all_chars p (PyStr.rstrip_by q s) = true.
Proof.
  induction s as [|c s IH]; intros Hs; [reflexivity|].
  cbn [all_chars] in Hs. apply andb_true_iff in Hs as [Hc Hs].
  rewrite rstrip_by_cons.
  destruct (q c && PyStr.is_empty (PyStr.rstrip_by q s)); [reflexivity|].
  cbn [all_chars]. rewrite Hc, (IH Hs). reflexivity.
Qed.

Lemma ascii_char_titled b c : ascii_char (titled b c) = ascii_char c.
Proof. destruct b; each_ascii c. Qed.

Lemma is_ascii_do_title s : forall b, is_ascii (PyStr.do_title b s) = is_ascii s.
Proof.
  induction s as [|c s IH]; intros b; [reflexivity|].
  rewrite do_title_cons. unfold is_ascii in *. cbn [all_chars].
  rewrite ascii_char_titled, IH. reflexivity.
Qed.

Lemma is_ascii_stripped s :
  is_ascii s = true ->
  is_ascii (PyStr.strip ". " (PyStr.replace end_of_utterance "" s)) = true.
Proof.
  intros Hs. unfold PyStr.strip, PyStr.strip_by, PyStr.replace.
  apply all_chars_rstrip_by, all_chars_lstrip_by, all_chars_replace_from, Hs.
Qed.

Lemma is_ascii_extract_answer s : is_ascii s = true -> is_ascii (extract_answer s) = true.
Proof.
  intros Hs. rewrite extract_answer_unfold. unfold PyStr.title.
  rewrite is_ascii_do_title. apply is_ascii_stripped, Hs.
Qed.

(** On a text of ASCII characters the normalizer on code points gives the
    code points of what [extract_answer] gives. *)
Lemma extract_answer_points s :
  is_ascii s = true -> Uni.extract_answer (Uni.points s) = Uni.points (extract_answer s).
Proof.
  intros Hs. unfold Uni.extract_answer, Uni.replace, Uni.title.
  change (@nil N) with (Uni.points "").
  rewrite replace_from_points. fold (PyStr.replace end_of_utterance "" s).
  rewrite strip_points, (do_title_points _ false (is_ascii_stripped s Hs)).
  reflexivity.
Qed.

(** C4, as the code has it.  On a text of ASCII characters the normalizer
    is idempotent: normalizing a normalized text changes nothing; and every
    key of the four catalogs is returned as it is. *)
Theorem extract_answer_idempotent_on_ascii :
  (forall s,
      is_ascii s = true ->
      Uni.extract_answer (Uni.extract_answer (Uni.points s))
      = Uni.extract_answer (Uni.points s))
  /\ set_Forall
       (fun label => Uni.extract_answer (Uni.points label) = Uni.points label)
       catalog_keys.
Proof.
  split.
  - intros s Hs.
    rewrite (extract_answer_points s Hs).
    rewrite (extract_answer_points _ (is_ascii_extract_answer s Hs)).
    rewrite extract_answer_twice. reflexivity.
  - intros label Hin. destruct (catalog_keys_fixed label Hin) as [Hascii Hfixed].
    rewrite (extract_answer_points label Hascii), Hfixed. reflexivity.
Qed.

Lemma extract_answer_idempotent_on_ascii_witness :
  is_ascii " happy. " = true
  /\ Uni.extract_answer (Uni.extract_answer (Uni.points " happy. "))
     = Uni.extract_answer (Uni.points " happy. ").
Proof.
  split; [reflexivity|].
  destruct extract_answer_idempotent_on_ascii as [Hidem _].
  apply (Hidem " happy. "). reflexivity.
Defined.

(** C4 as it is stated fails.  The text [a], U+0130, [b] is normalized to
    [A], [i], U+0307, [b]: the capital I with a dot comes after a cased
    character and is put in lower case, which is two characters.  The
    combining dot is not cased, so normalizing again puts the [b] after it in
    title case: [A], [i], U+0307, [B]. *)
Lemma extract_answer_not_idempotent :
  Uni.extract_answer [97; 304; 98]%N = [65; 105; 775; 98]%N
  /\ Uni.extract_answer (Uni.extract_answer [97; 304; 98]%N) = [65; 105; 775; 66]%N
  /\ Uni.extract_answer (Uni.extract_answer [97; 304; 98]%N)
     <> Uni.extract_answer [97; 304; 98]%N.
Proof. repeat split; try reflexivity. vm_compute. discriminate. Qed.

(** X3. On a text of ASCII characters the normalized answer is a text of
    ASCII characters that is never longer than the answer, and unless it is
    empty it neither starts nor ends with a space or a period. *)
Theorem extract_answer_is_stripped s :
  is_ascii s = true ->
  exists r,
    Uni.extract_answer (Uni.points s) = Uni.points r
    /\ is_ascii r = true
    /\ (length (Uni.points r) <= length (Uni.points s))%nat
    /\ (r = ""
        \/ (starts_kept (PyStr.char_in ". ") r = true
            /\ ends_kept (PyStr.char_in ". ") r = true)).
Proof.
  intros Hs. exists (extract_answer s).
  destruct (extract_answer_stripped_text s) as [Hlength Hends].
  split; [exact (extract_answer_points s Hs)|].
  split; [exact (is_ascii_extract_answer s Hs)|].
  split; [rewrite !length_points; exact Hlength | exact Hends].
Qed.

Lemma extract_answer_is_stripped_witness :
  is_ascii ". happy days ." = true
  /\ exists r,
       Uni.extract_answer (Uni.points ". happy days .") = Uni.points r
       /\ is_ascii r = true
       /\ (length (Uni.points r) <= length (Uni.points ". happy days ."))%nat
       /\ (r = ""
           \/ (starts_kept (PyStr.char_in ". ") r = true
               /\ ends_kept (PyStr.char_in ". ") r = true)).
Proof.
  split; [reflexivity|].
  apply (extract_answer_is_stripped ". happy days ."). reflexivity.
Defined.
